(** * Telemetry reporter of cdktf-cli: packages/cdktf-cli/lib/checkpoint.ts

    A shallow embedding of [post], [getId], [getProjectId], [getUserId],
    [ReportRequest] and [sendTelemetry], with the file system, Node's module
    cache, the UUID generator, the network and the two logging sinks made
    explicit as state.

    Modelling conventions.
    - A JavaScript string is a [string] holding its UTF-8 encoding: the
      bytes that [req.write] puts on the wire.  [js_length] recovers the
      value of the [.length] property (UTF-16 code units).
    - An optional property is an [option]; [undefined] is [None].  The
      conditions of the source test truthiness, not presence: [str_truthy],
      [truthy], [opt_truthy].
    - A JSON object is a [gmap string json] of its own properties (names
      inherited from [Object.prototype] are outside the model).
    - An identity file is seen through [require]: either it does not parse,
      or it parses to an object.  [JSON.stringify] followed by the parse of
      a later [require] is the identity on such objects, so a write stores
      the object itself.
    - A [Date] is identified with the ISO-8601 text that [JSON.stringify]
      gives for it.
    - [JSON.stringify] and [url.format] are parameters; [JSON.stringify]
      returns its text or throws.  [path.resolve] is that of a POSIX
      host. *)

From Stdlib Require Import ZArith String Ascii List Lia.
From stdpp Require Import base gmap strings list fin_maps.

Set Warnings "-register-all".

Open Scope string_scope.

(** ** JavaScript values *)

(** The values that occur in the records and files: the JSON values, and
    [BigInt], which a caller can put into a payload (it is typed
    [Record<string, any>]) and which [JSON.stringify] refuses. *)
Inductive json :=
| JNull
| JBool (b : bool)
| JNum (n : Z)
| JStr (s : string)
| JArr (items : list json)
| JObj (fields : gmap string json)
| JBigInt (n : Z).

Definition str_truthy (s : string) : bool := negb (String.eqb s "").

Definition num_truthy (n : Z) : bool := negb (n =? 0)%Z.

Definition truthy (v : json) : bool :=
  match v with
  | JNull => false
  | JBool b => b
  | JNum n => num_truthy n
  | JStr s => str_truthy s
  | JArr _ => true
  | JObj _ => true
  | JBigInt n => num_truthy n
  end.

Definition opt_truthy {A : Type} (t : A -> bool) (o : option A) : bool :=
  match o with
  | Some a => t a
  | None => false
  end.

(** [s.length]: one unit per code point, two for a code point outside the
    basic plane (a four-byte UTF-8 sequence); continuation bytes
    [10xxxxxx] count for nothing. *)
Definition utf16_units (c : ascii) : nat :=
  let n := nat_of_ascii c in
  if (n <? 128)%nat then 1
  else if (n <? 192)%nat then 0
  else if (n <? 240)%nat then 1
  else 2.

Fixpoint js_length (s : string) : nat :=
  match s with
  | EmptyString => 0
  | String c s' => utf16_units c + js_length s'
  end.

(** The number of bytes of the body on the wire. *)
Definition byte_length (s : string) : nat := String.length s.

(** [s.replaceAll("\n", " ")] *)
Fixpoint replaceAll_newline_space (s : string) : string :=
  match s with
  | EmptyString => EmptyString
  | String c s' =>
      String (if Ascii.eqb c "010"%char then " "%char else c)
             (replaceAll_newline_space s')
  end.

(** Errors: [name] and [message] of an [Error] object. *)
Record js_error := mk_error { err_name : string; err_message : string }.

(** [new Error(msg)] *)
Definition Error (msg : string) : js_error := mk_error "Error" msg.

(** [`${err}`], that is [Error.prototype.toString]. *)
Definition error_to_string (e : js_error) : string :=
  if String.eqb (err_name e) "" then err_message e
  else if String.eqb (err_message e) "" then err_name e
  else err_name e +:+ ": " +:+ err_message e.

(** A synchronous call returns or throws. *)
Inductive completion (A : Type) :=
| Normal (a : A)
| Throw (e : js_error).
Arguments Normal {A} a.
Arguments Throw {A} e.

(** The state of a promise as its awaiter sees it. *)
Inductive promise :=
| Pending
| Fulfilled
| Rejected (e : js_error).

(** ** Version-4 UUID syntax: [xxxxxxxx-xxxx-4xxx-yxxx-xxxxxxxxxxxx],
    [x] a hexadecimal digit and [y] one of 8, 9, a, b. *)

Definition is_hex (c : ascii) : bool :=
  let n := nat_of_ascii c in
  ((48 <=? n) && (n <=? 57) || (97 <=? n) && (n <=? 102)
   || (65 <=? n) && (n <=? 70))%nat.

Definition is_variant (c : ascii) : bool :=
  let n := nat_of_ascii c in
  ((n =? 56) || (n =? 57) || (n =? 97) || (n =? 98)
   || (n =? 65) || (n =? 66))%nat.

Definition is_char (x : ascii) (c : ascii) : bool := Ascii.eqb x c.

Fixpoint matches (pat : list (ascii -> bool)) (s : string) : bool :=
  match pat, s with
  | [], EmptyString => true
  | p :: pat', String c s' => p c && matches pat' s'
  | _, _ => false
  end.

Definition uuid_v4_pattern : list (ascii -> bool) :=
  repeat is_hex 8 ++ [is_char "-"%char] ++
  repeat is_hex 4 ++ [is_char "-"%char] ++
  [is_char "4"%char] ++ repeat is_hex 3 ++ [is_char "-"%char] ++
  [is_variant] ++ repeat is_hex 3 ++ [is_char "-"%char] ++
  repeat is_hex 12.

Definition is_uuid_v4 (s : string) : bool := matches uuid_v4_pattern s.

(** ** The report record *)

Definition Date := string.

Record ReportParams := mkReportParams {
  dateTime : option Date;
  arch : option string;
  os : option string;
  payload : gmap string json;
  product : string;
  runID : option string;
  version : option string;
  command : option string;
  language : option json;
  userId : option json;
  ci : option string;
  projectId : option json;
}.

Definition set_runID (v : string) (r : ReportParams) : ReportParams :=
  mkReportParams (dateTime r) (arch r) (os r) (payload r) (product r)
    (Some v) (version r) (command r) (language r) (userId r) (ci r)
    (projectId r).

Definition set_dateTime (v : Date) (r : ReportParams) : ReportParams :=
  mkReportParams (Some v) (arch r) (os r) (payload r) (product r)
    (runID r) (version r) (command r) (language r) (userId r) (ci r)
    (projectId r).

Definition set_arch (v : string) (r : ReportParams) : ReportParams :=
  mkReportParams (dateTime r) (Some v) (os r) (payload r) (product r)
    (runID r) (version r) (command r) (language r) (userId r) (ci r)
    (projectId r).

Definition set_os (v : string) (r : ReportParams) : ReportParams :=
  mkReportParams (dateTime r) (arch r) (Some v) (payload r) (product r)
    (runID r) (version r) (command r) (language r) (userId r) (ci r)
    (projectId r).

Definition set_userId (v : json) (r : ReportParams) : ReportParams :=
  mkReportParams (dateTime r) (arch r) (os r) (payload r) (product r)
    (runID r) (version r) (command r) (language r) (Some v) (ci r)
    (projectId r).

Definition set_ci (v : string) (r : ReportParams) : ReportParams :=
  mkReportParams (dateTime r) (arch r) (os r) (payload r) (product r)
    (runID r) (version r) (command r) (language r) (userId r) (Some v)
    (projectId r).

Definition set_projectId (v : json) (r : ReportParams) : ReportParams :=
  mkReportParams (dateTime r) (arch r) (os r) (payload r) (product r)
    (runID r) (version r) (command r) (language r) (userId r) (ci r)
    (Some v).

(** The object that [JSON.stringify(reportParams)] serializes: a property
    whose value is [undefined] is left out. *)
Definition put (k : string) (o : option json) (m : gmap string json)
  : gmap string json :=
  match o with
  | Some v => <[k := v]> m
  | None => m
  end.

Definition to_json (r : ReportParams) : gmap string json :=
  put "dateTime" (JStr <$> dateTime r)
  (put "arch" (JStr <$> arch r)
  (put "os" (JStr <$> os r)
  (put "payload" (Some (JObj (payload r)))
  (put "product" (Some (JStr (product r)))
  (put "runID" (JStr <$> runID r)
  (put "version" (JStr <$> version r)
  (put "command" (JStr <$> command r)
  (put "language" (language r)
  (put "userId" (userId r)
  (put "ci" (JStr <$> ci r)
  (put "projectId" (projectId r) ∅))))))))))).

(** ** The host and the mutable state *)

(** What the response callback and the listeners of the source can be sent
    by the runtime while one request is in flight. *)
Inductive net_event :=
| EvResponse (statusCode : option Z) (statusMessage : string)
| EvData (chunk : string)
| EvResError (err : js_error)
| EvEnd
| EvReqError (err : js_error)
| EvTimeout.

(** Calls that code can make on the request object.  [ReqDestroy] stands
    for [req.destroy()] / [req.abort()]. *)
Inductive req_call :=
| ReqSetTimeout (ms : nat)
| ReqWrite (data : string)
| ReqEnd
| ReqOnError
| ReqDestroy.

Record headers := mk_headers {
  Accept : string;
  Content_Length : nat;
  User_Agent : string;
}.

Record http_request := mk_request {
  req_url : string;
  req_method : string;
  req_headers : headers;
  req_calls : list req_call;
}.

Inductive log_entry :=
| LoggerError (msg : string)
| ProcessLoggerError (msg : string).

Inductive file_content :=
| Unparsable
| Parsed (obj : gmap string json).

(** What the code reads and never changes. *)
Record Host := mk_host {
  env_CHECKPOINT_DISABLE : option string; (* process.env.CHECKPOINT_DISABLE *)
  ciDetect : option string;               (* ciDetect(); [None] is false *)
  os_arch : string;                       (* os.arch() *)
  os_platform : string;                   (* os.platform() *)
  os_homedir : string;                    (* os.homedir() *)
  process_cwd : string;                   (* process.cwd() *)
  versionNumber : string;                 (* versionNumber() *)
  new_Date : Date;                        (* new Date() *)
  uuid_source : nat -> string;            (* the n-th result of uuidv4() *)
  write_fails : gmap string js_error;     (* paths where writeFileSync throws *)
  network : nat -> list net_event;        (* what the n-th request is sent *)
}.

Record State := mk_state {
  uuids_drawn : nat;
  files : gmap string file_content;
  require_cache : gmap string (gmap string json);
  requests : list http_request;
  logged : list log_entry;
}.

Definition set_files (f : gmap string file_content) (s : State) : State :=
  mk_state (uuids_drawn s) f (require_cache s) (requests s) (logged s).

Definition set_require_cache (c : gmap string (gmap string json)) (s : State)
  : State :=
  mk_state (uuids_drawn s) (files s) c (requests s) (logged s).

Definition add_request (q : http_request) (s : State) : State :=
  mk_state (uuids_drawn s) (files s) (require_cache s) (requests s ++ [q])
    (logged s).

Definition add_log (e : log_entry) (s : State) : State :=
  mk_state (uuids_drawn s) (files s) (require_cache s) (requests s)
    (logged s ++ [e]).

(** ** [path.resolve] on a POSIX host *)

(** [s.split("/")] *)
Fixpoint split_slash (s : string) : list string :=
  match s with
  | EmptyString => [EmptyString]
  | String c s' =>
      if Ascii.eqb c "/"%char then EmptyString :: split_slash s'
      else match split_slash s' with
           | seg :: segs => String c seg :: segs
           | [] => [String c EmptyString]
           end
  end.

(** [segs.join("/")] *)
Fixpoint join_slash (segs : list string) : string :=
  match segs with
  | [] => EmptyString
  | [seg] => seg
  | seg :: rest => seg +:+ "/" +:+ join_slash rest
  end.

Definition starts_with_slash (s : string) : bool :=
  match s with
  | String c _ => Ascii.eqb c "/"%char
  | EmptyString => false
  end.

(** One segment of [normalizeString]: an empty segment and ["."] are
    dropped, [".."] removes the segment before it (or is kept, when the
    path may climb above its start), anything else is kept. *)
Definition normalize_step (allowAboveRoot : bool) (res : list string)
    (seg : string) : list string :=
  if String.eqb seg "" || String.eqb seg "." then res
  else if String.eqb seg ".." then
    match last res with
    | Some l =>
        if String.eqb l ".." then
          (if allowAboveRoot then res ++ [".."] else res)%list
        else removelast res
    | None => (if allowAboveRoot then res ++ [".."] else res)%list
    end
  else (res ++ [seg])%list.

Definition normalizeString (path : string) (allowAboveRoot : bool)
  : list string :=
  fold_left (normalize_step allowAboveRoot) (split_slash path) [].

(** The loop of [path.resolve]: the arguments are taken from the last to the
    first, then [process.cwd()], until an absolute one has been added;
    empty arguments are skipped. *)
Fixpoint resolve_loop (args_from_last : list string) (cwd : string)
    (resolvedPath : string) : string * bool :=
  match args_from_last with
  | [] =>
      if String.eqb cwd "" then (resolvedPath, false)
      else (cwd +:+ "/" +:+ resolvedPath, starts_with_slash cwd)
  | path :: rest =>
      if String.eqb path "" then resolve_loop rest cwd resolvedPath
      else if starts_with_slash path then (path +:+ "/" +:+ resolvedPath, true)
      else resolve_loop rest cwd (path +:+ "/" +:+ resolvedPath)
  end.

(** [path.resolve(...args)] in a process whose working directory is
    [cwd]. *)
Definition path_resolve (cwd : string) (args : list string) : string :=
  let '(resolvedPath, resolvedAbsolute) := resolve_loop (rev args) cwd "" in
  let resolved := join_slash (normalizeString resolvedPath (negb resolvedAbsolute)) in
  if resolvedAbsolute then "/" +:+ resolved
  else if String.eqb resolved "" then "." else resolved.

Section Identity.

Variable h : Host.

(** [uuidv4()] *)
Definition uuidv4 (s : State) : string * State :=
  (uuid_source h (uuids_drawn s),
   mk_state (S (uuids_drawn s)) (files s) (require_cache s) (requests s)
     (logged s)).

(** [require(filePath)] of a JSON file: a module already loaded comes from
    the cache; otherwise the file is read and parsed, and cached when that
    succeeds.  [None] stands for the exception, which [getId] discards. *)
Definition require (filePath : string) (s : State)
  : option (gmap string json) * State :=
  match require_cache s !! filePath with
  | Some exports => (Some exports, s)
  | None =>
      match files s !! filePath with
      | Some (Parsed obj) =>
          (Some obj, set_require_cache (<[filePath := obj]> (require_cache s)) s)
      | Some Unparsable => (None, s)
      | None => (None, s)
      end
  end.

(** [fs.writeFileSync(filePath, JSON.stringify(obj, null, 2))] *)
Definition writeFileSync (filePath : string) (obj : gmap string json)
    (s : State) : completion unit * State :=
  match write_fails h !! filePath with
  | Some e => (Throw e, s)
  | None => (Normal tt, set_files (<[filePath := Parsed obj]> (files s)) s)
  end.

Definition getId (filePath : string) (key : string)
    (explanatoryComment : option string) (s : State)
  : completion json * State :=
  let '(_uuid, s) := uuidv4 s in
  let _idFile : gmap string json := ∅ in
  let _idFile :=
    if opt_truthy str_truthy explanatoryComment then
      <["//" := JStr (replaceAll_newline_space (default "" explanatoryComment))]>
        _idFile
    else _idFile in
  let _idFile := <[key := JStr _uuid]> _idFile in
  match require filePath s with
  | (None, s) =>
      match writeFileSync filePath _idFile s with
      | (Throw e, s) => (Throw e, s)
      | (Normal _, s) => (Normal (JStr _uuid), s)
      end
  | (Some jsonFile, s) =>
      if opt_truthy truthy (jsonFile !! key) then
        (Normal (default JNull (jsonFile !! key)), s)
      else
        match writeFileSync filePath (<[key := JStr _uuid]> jsonFile) s with
        | (Throw e, s) => (Throw e, s)
        | (Normal _, s) => (Normal (JStr _uuid), s)
        end
  end.

Definition getProjectId (s : State) : completion json * State :=
  getId (path_resolve (process_cwd h) [process_cwd h; "cdktf.json"]) "projectId" None s.

Definition user_comment : string :=
  "This signature is a randomly generated UUID used to anonymously differentiate users in telemetry data order to inform product direction. " +:+ String "010" (
  "This signature is random, it is not based on any personally identifiable information. " +:+ String "010" (
  "To create a new signature, you can simply delete this file at any time." +:+ String "010" (
  "See https://github.com/hashicorp/terraform-cdk/blob/main/docs/working-with-cdk-for-terraform/telemetry.md for more" +:+ String "010" 
  "information on how to disable it."))).

Definition getUserId (s : State) : completion json * State :=
  getId (path_resolve (process_cwd h) [os_homedir h; ".cdktf"; "config.json"]) "userId"
    (Some user_comment) s.

End Identity.

(** ** Transport *)

Definition BASE_URL : string := "https://checkpoint-api.hashicorp.com/v1/".

Definition VALID_STATUS_CODES : list Z := [200; 201]%Z.

(** [VALID_STATUS_CODES.includes(statusCode)] *)
Definition includes (l : list Z) (x : Z) : bool := existsb (Z.eqb x) l.

(** The promise built by [post] together with what its closures hold: the
    [data] array of the response callback, whether the listeners on [res]
    are attached, and the calls made on [req] so far. *)
Record post_state := mk_post {
  settled : promise;
  res_listening : bool;
  received : list string;
  calls : list req_call;
}.

(** [ok()] and [ko(err)]: a promise settles once; later calls change nothing. *)
Definition ok (st : post_state) : post_state :=
  match settled st with
  | Pending => mk_post Fulfilled (res_listening st) (received st) (calls st)
  | _ => st
  end.

Definition ko (err : js_error) (st : post_state) : post_state :=
  match settled st with
  | Pending => mk_post (Rejected err) (res_listening st) (received st) (calls st)
  | _ => st
  end.

Definition listen (st : post_state) : post_state :=
  mk_post (settled st) true (received st) (calls st).

(** The response callback, lines 42-55. *)
Definition on_response (statusCode : option Z) (statusMessage : string)
    (st : post_state) : post_state :=
  match statusCode with
  | Some sc =>
      if num_truthy sc then
        if negb (includes VALID_STATUS_CODES sc) then
          ko (Error statusMessage) st
        else listen st
      else listen st
  | None => listen st
  end.

(** The timeout callback, line 58. *)
Definition on_timeout (st : post_state) : post_state :=
  ko (Error "request timeout") st.

Definition handle (st : post_state) (ev : net_event) : post_state :=
  match ev with
  | EvResponse statusCode statusMessage => on_response statusCode statusMessage st
  | EvData chunk =>
      if res_listening st then
        mk_post (settled st) true (received st ++ [chunk]) (calls st)
      else st
  | EvResError err => if res_listening st then ko err st else st
  | EvEnd => if res_listening st then ok st else st
  | EvReqError err => ko err st
  | EvTimeout => on_timeout st
  end.

(** The promise and the request once the events [evs] have been delivered. *)
Definition post_run (data : string) (evs : list net_event) : post_state :=
  fold_left handle evs
    (mk_post Pending false []
       [ReqSetTimeout 1000; ReqWrite data; ReqEnd; ReqOnError]).

Section Pipeline.

(** [JSON.stringify] and [url.format] of the runtime.  [JSON.stringify]
    returns the text or throws (a [BigInt], a cyclic structure). *)
Variable JSON_stringify : json -> completion string.
Variable format : string -> string.
Variable h : Host.

Definition post (url : string) (data : string) (s : State) : promise * State :=
  let st := post_run data (network h (length (requests s))) in
  (settled st,
   add_request
     (mk_request (format url) "POST"
        (mk_headers "application/json" (js_length data) "HashiCorp/cdktf-cli")
        (calls st))
     s).

(** ** Report builder *)

(** Lines 139-153 of [ReportRequest]: [runID], [dateTime], [arch], [os]. *)
Definition fill_host_fields (r : ReportParams) (s : State)
  : ReportParams * State :=
  let '(r, s) :=
    if negb (opt_truthy str_truthy (runID r)) then
      let '(u, s) := uuidv4 h s in (set_runID u r, s)
    else (r, s) in
  let r :=
    if negb (opt_truthy (fun _ => true) (dateTime r)) then
      set_dateTime (new_Date h) r
    else r in
  let r :=
    if negb (opt_truthy str_truthy (arch r)) then set_arch (os_arch h) r
    else r in
  let r :=
    if negb (opt_truthy str_truthy (os r)) then set_os (os_platform h) r
    else r in
  (r, s).

(** Lines 155-164 of [ReportRequest]: [userId], [ci], [projectId]. *)
Definition fill_identity (r : ReportParams) (s : State)
  : completion unit * ReportParams * State :=
  let ci := ciDetect h in
  let '(c, r, s) :=
    if negb (opt_truthy truthy (userId r)) && negb (opt_truthy str_truthy ci)
    then
      match getUserId h s with
      | (Normal v, s) => (Normal tt, set_userId v r, s)
      | (Throw e, s) => (Throw e, r, s)
      end
    else (Normal tt, r, s) in
  match c with
  | Throw e => (Throw e, r, s)
  | Normal _ =>
      let r :=
        if opt_truthy str_truthy ci then set_ci (default "" ci) r else r in
      if opt_truthy truthy (projectId r) then (Normal tt, r, s)
      else
        match getProjectId h s with
        | (Normal v, s) => (Normal tt, set_projectId v r, s)
        | (Throw e, s) => (Throw e, r, s)
        end
  end.

(** The defaulting step, lines 139-164.  The record is mutated in place, so
    the record as it stands is returned also when an identity-store call
    throws. *)
Definition fill_defaults (r : ReportParams) (s : State)
  : completion unit * ReportParams * State :=
  let '(r, s) := fill_host_fields r s in
  fill_identity r s.

(** [processLoggerError(msg)] and [logger.error(msg)] *)
Definition processLoggerError (msg : string) (s : State) : State :=
  add_log (ProcessLoggerError msg) s.

Definition logger_error (msg : string) (s : State) : State :=
  add_log (LoggerError msg) s.

Definition ReportRequest (reportParams : ReportParams) (s : State)
  : promise * ReportParams * State :=
  if opt_truthy str_truthy (env_CHECKPOINT_DISABLE h) then
    (Fulfilled, reportParams, s)
  else
    match fill_defaults reportParams s with
    | (Throw e, reportParams, s) => (Rejected e, reportParams, s)
    | (Normal _, reportParams, s) =>
        match JSON_stringify (JObj (to_json reportParams)) with
        | Throw e => (Rejected e, reportParams, s)
        | Normal postData =>
            match post (BASE_URL +:+ "telemetry/" +:+ product reportParams)
                    postData s with
            | (Rejected e, s) =>
                (Fulfilled, reportParams, processLoggerError (err_message e) s)
            | (p, s) => (p, reportParams, s)
            end
        end
    end.

(** The record that [sendTelemetry] builds, lines 69-76. *)
Definition telemetry_record (command : string) (payload : gmap string json)
  : ReportParams :=
  {| command := Some command;
     product := "cdktf";
     version := Some (versionNumber h);
     dateTime := Some (new_Date h);
     language := payload !! "language";
     payload := payload;
     arch := None; os := None; runID := None; userId := None; ci := None;
     projectId := None |}.

Definition sendTelemetry (command : string) (payload : gmap string json)
    (s : State) : promise * State :=
  let reportParams := telemetry_record command payload in
  match ReportRequest reportParams s with
  | (Rejected err, _, s) =>
      (Fulfilled,
       logger_error ("Could not send telemetry data: " +:+ error_to_string err) s)
  | (p, _, s) => (p, s)
  end.

(** A record on which defaulting has nothing left to do on host [h]. *)
Definition populated (r : ReportParams) : Prop :=
  opt_truthy str_truthy (runID r) = true
  /\ is_Some (dateTime r)
  /\ (opt_truthy str_truthy (arch r) = true \/ arch r = Some (os_arch h))
  /\ (opt_truthy str_truthy (os r) = true \/ os r = Some (os_platform h))
  /\ (opt_truthy truthy (userId r) = true
      \/ opt_truthy str_truthy (ciDetect h) = true)
  /\ (opt_truthy str_truthy (ciDetect h) = true -> ci r = ciDetect h)
  /\ opt_truthy truthy (projectId r) = true.

End Pipeline.

(** ** Sample hosts, states and records *)

Definition sample_uuid : string := "110ec58a-a0f2-4ac4-8393-c866d813b8d1".

Definition ok_exchange : list net_event :=
  [EvResponse (Some 200%Z) "OK"; EvData "{}"; EvEnd].

Definition dev_host : Host :=
  mk_host None None "x64" "linux" "/home/dev" "/work/app" "0.4.1"
    "2021-06-01T12:00:00.000Z" (fun _ => sample_uuid) ∅ (fun _ => ok_exchange).

Definition ci_host : Host :=
  mk_host None (Some "github-actions") "x64" "linux" "/home/dev" "/work/app"
    "0.4.1" "2021-06-01T12:00:00.000Z" (fun _ => sample_uuid) ∅
    (fun _ => ok_exchange).

Definition disabled_host : Host :=
  mk_host (Some "1") None "x64" "linux" "/home/dev" "/work/app" "0.4.1"
    "2021-06-01T12:00:00.000Z" (fun _ => sample_uuid) ∅ (fun _ => ok_exchange).

(** A home directory without a [.cdktf] directory: the write of the user
    identity file throws. *)
Definition ENOENT : js_error :=
  mk_error "Error"
    "ENOENT: no such file or directory, open '/home/dev/.cdktf/config.json'".

Definition bare_home_host : Host :=
  mk_host None None "x64" "linux" "/home/dev" "/work/app" "0.4.1"
    "2021-06-01T12:00:00.000Z" (fun _ => sample_uuid)
    {[ "/home/dev/.cdktf/config.json" := ENOENT ]} (fun _ => ok_exchange).

(** A host whose server answers 500. *)
Definition failing_server_host : Host :=
  mk_host None None "x64" "linux" "/home/dev" "/work/app" "0.4.1"
    "2021-06-01T12:00:00.000Z" (fun _ => sample_uuid) ∅
    (fun _ => [EvResponse (Some 500%Z) "Internal Server Error"]).

Definition empty_state : State := mk_state 0 ∅ ∅ [] [].

Definition bare_record : ReportParams :=
  {| dateTime := None; arch := None; os := None; payload := ∅;
     product := "cdktf"; runID := None; version := None; command := None;
     language := None; userId := None; ci := None; projectId := None |}.

(** Stand-ins for the runtime's [JSON.stringify] and [url.format] where a
    statement has to be run on a concrete input.  The stand-in for
    [JSON.stringify] throws, as the runtime does, when the payload of the
    record holds a [BigInt]. *)
Definition is_BigInt (v : json) : bool :=
  match v with
  | JBigInt _ => true
  | _ => false
  end.

Definition BigInt_error : js_error :=
  mk_error "TypeError" "Do not know how to serialize a BigInt".

Definition sample_stringify (v : json) : completion string :=
  match v with
  | JObj fields =>
      match fields !! "payload" with
      | Some (JObj payload) =>
          if existsb is_BigInt (map snd (map_to_list payload))
          then Throw BigInt_error
          else Normal "{}"
      | _ => Normal "{}"
      end
  | _ => Normal "{}"
  end.

(** A record whose payload holds the BigInt [1n]. *)
Definition record_with_BigInt : ReportParams :=
  {| dateTime := None; arch := None; os := None;
     payload := {[ "count" := JBigInt 1 ]};
     product := "cdktf"; runID := None; version := None; command := None;
     language := None; userId := None; ci := None; projectId := None |}.
Definition sample_format (url : string) : string := url.

(** A project whose [cdktf.json] carries an empty [projectId]. *)
Definition empty_projectId_state : State :=
  mk_state 0
    {[ "/work/app/cdktf.json" :=
         Parsed (<["language" := JStr "typescript"]> {[ "projectId" := JStr "" ]}) ]}
    ∅ [] [].

(** A project whose [cdktf.json] carries a [projectId]. *)
Definition known_project_state : State :=
  mk_state 0
    {[ "/work/app/cdktf.json" :=
         Parsed (<["language" := JStr "typescript"]>
                   {[ "projectId" := JStr "0b9c5a3e-7c1d-4c55-9f3e-2f6a1d0e8b77" ]}) ]}
    ∅ [] [].

(** A record for which the caller already chose a [userId]. *)
Definition record_with_userId : ReportParams :=
  {| dateTime := None; arch := None; os := None; payload := ∅;
     product := "cdktf"; runID := None; version := None; command := None;
     language := None; userId := Some (JStr "dev-7"); ci := None;
     projectId := None |}.

(** A record with an empty [runID]. *)
Definition record_with_empty_runID : ReportParams :=
  {| dateTime := None; arch := None; os := None; payload := ∅;
     product := "cdktf"; runID := Some ""; version := None; command := None;
     language := None; userId := None; ci := None; projectId := None |}.

(** A record with every field given by the caller. *)
Definition full_record : ReportParams :=
  {| dateTime := Some "2021-05-31T08:30:00.000Z"; arch := Some "arm64";
     os := Some "darwin"; payload := ∅; product := "cdktf";
     runID := Some "7d1e3c52-55a0-4b0a-9d0e-0d8f3a0c2b11";
     version := Some "0.4.0"; command := Some "synth";
     language := Some (JStr "python"); userId := Some (JStr "dev-7");
     ci := Some "jenkins";
     projectId := Some (JStr "0b9c5a3e-7c1d-4c55-9f3e-2f6a1d0e8b77") |}.

(** A host whose server never answers: the idle timer fires. *)
Definition silent_server_host : Host :=
  mk_host None None "x64" "linux" "/home/dev" "/work/app" "0.4.1"
    "2021-06-01T12:00:00.000Z" (fun _ => sample_uuid) ∅ (fun _ => [EvTimeout]).

(** The body [{"product":"cdktf","payload":{"name":"é"}}]; the letter e
    with acute accent is the two bytes 195, 169. *)
Definition dq : string := String "034"%char EmptyString.

Definition e_acute : string := String "195"%char (String "169"%char EmptyString).

Definition accented_body : string :=
  "{" +:+ dq +:+ "product" +:+ dq +:+ ":" +:+ dq +:+ "cdktf" +:+ dq +:+ ","
  +:+ dq +:+ "payload" +:+ dq +:+ ":{" +:+ dq +:+ "name" +:+ dq +:+ ":"
  +:+ dq +:+ e_acute +:+ dq +:+ "}}".

Definition telemetry_url : string :=
  "https://checkpoint-api.hashicorp.com/v1/telemetry/cdktf".

(** A host whose [uuidv4] returns a different value on each of its first
    calls. *)
Definition second_uuid : string := "9a1fd6c2-3b7e-4d2a-8c41-5e0f7b6a9d13".

Definition third_uuid : string := "c3e8a2f4-61d5-4f0b-b7a9-0d2c4e6f8a1b".

Definition counting_host : Host :=
  mk_host None None "x64" "linux" "/home/dev" "/work/app" "0.4.1"
    "2021-06-01T12:00:00.000Z"
    (fun n => match n with
              | 0 => sample_uuid
              | 1 => second_uuid
              | _ => third_uuid
              end)
    ∅ (fun _ => ok_exchange).

(** A project whose [cdktf.json] has no [projectId] yet. *)
Definition new_project_state : State :=
  mk_state 0
    {[ "/work/app/cdktf.json" := Parsed {[ "language" := JStr "typescript" ]} ]}
    ∅ [] [].

(** Well-formed UTF-8, by the lengths of its sequences: a lead byte below
    128 stands alone, one in 192..223, 224..239 or 240..255 is followed by
    one, two or three continuation bytes (128..191).  [k] is the number of
    continuation bytes still due. *)
Fixpoint utf8_scan (k : nat) (s : string) : bool :=
  match s with
  | EmptyString => (k =? 0)%nat
  | String c s' =>
      let n := nat_of_ascii c in
      match k with
      | 0 =>
          if (n <? 128)%nat then utf8_scan 0 s'
          else if (n <? 192)%nat then false
          else if (n <? 224)%nat then utf8_scan 1 s'
          else if (n <? 240)%nat then utf8_scan 2 s'
          else utf8_scan 3 s'
      | S k' =>
          if ((128 <=? n) && (n <? 192))%nat then utf8_scan k' s' else false
      end
  end.

Definition utf8_valid (s : string) : bool := utf8_scan 0 s.

(** Every byte is an ASCII character. *)
Definition is_ascii (s : string) : bool :=
  forallb (fun c => (nat_of_ascii c <? 128)%nat) (list_ascii_of_string s).

(** Hosts whose server answers 201, and 200 followed by a broken stream. *)
Definition created_host : Host :=
  mk_host None None "x64" "linux" "/home/dev" "/work/app" "0.4.1"
    "2021-06-01T12:00:00.000Z" (fun _ => sample_uuid) ∅
    (fun _ => [EvResponse (Some 201%Z) "Created"; EvData "{"; EvData "}"; EvEnd]).

Definition ECONNRESET : js_error := mk_error "Error" "read ECONNRESET".

Definition broken_stream_host : Host :=
  mk_host None None "x64" "linux" "/home/dev" "/work/app" "0.4.1"
    "2021-06-01T12:00:00.000Z" (fun _ => sample_uuid) ∅
    (fun _ => [EvResponse (Some 200%Z) "OK"; EvData "{"; EvResError ECONNRESET]).

(** A host whose idle timer fires after the response has ended. *)
Definition late_timeout_host : Host :=
  mk_host None None "x64" "linux" "/home/dev" "/work/app" "0.4.1"
    "2021-06-01T12:00:00.000Z" (fun _ => sample_uuid) ∅
    (fun _ => [EvResponse (Some 200%Z) "OK"; EvEnd; EvTimeout]).

(** The two identity files of a host. *)
Definition user_identity_path (h : Host) : string :=
  path_resolve (process_cwd h) [os_homedir h; ".cdktf"; "config.json"].

Definition project_identity_path (h : Host) : string :=
  path_resolve (process_cwd h) [process_cwd h; "cdktf.json"].

(** The file at [path] holds the truthy value [v] under [key], and the
    module cache has nothing else for it. *)
Definition id_on_disk (s : State) (path key : string) (v : json) : Prop :=
  exists obj,
    files s !! path = Some (Parsed obj)
    /\ obj !! key = Some v
    /\ truthy v = true
    /\ (require_cache s !! path = None \/ require_cache s !! path = Some obj).

(** Both identifiers of host [h] are on disk. *)
Definition ids_on_disk (h : Host) (s : State) (vu vp : json) : Prop :=
  id_on_disk s (user_identity_path h) "userId" vu
  /\ id_on_disk s (project_identity_path h) "projectId" vp.

(** A machine on which both identity files have been written. *)
Definition known_ids_state : State :=
  mk_state 0
    (<[ "/home/dev/.cdktf/config.json" :=
          Parsed (<["//" := JStr "about this file"]>
                    {[ "userId" := JStr "5f0c2b7e-1a3d-4e6f-9b8c-7d6e5f4a3b2c" ]}) ]>
       {[ "/work/app/cdktf.json" :=
            Parsed (<["language" := JStr "typescript"]>
                      {[ "projectId" := JStr "0b9c5a3e-7c1d-4c55-9f3e-2f6a1d0e8b77" ]}) ]})
    ∅ [] [].

(** * Properties *)

(** ** Basic facts *)

Lemma is_uuid_v4_truthy (u : string) :
  is_uuid_v4 u = true -> str_truthy u = true.
Proof. destruct u as [|c u]; [discriminate | reflexivity]. Qed.

Lemma str_truthy_ne (u : string) : str_truthy u = true <-> u <> "".
Proof.
  unfold str_truthy. destruct (String.eqb_spec u ""); simpl; split;
    congruence.
Qed.

Lemma lookup_put (k k' : string) (o : option json) (m : gmap string json) :
  put k o m !! k' =
  if decide (k = k') then
    match o with Some v => Some v | None => m !! k' end
  else m !! k'.
Proof.
  unfold put. destruct o as [v|].
  - rewrite lookup_insert. reflexivity.
  - destruct (decide (k = k')); reflexivity.
Qed.

Lemma to_json_userId (r : ReportParams) : to_json r !! "userId" = userId r.
Proof.
  unfold to_json. rewrite !lookup_put. simpl.
  destruct (userId r); reflexivity.
Qed.

Lemma to_json_ci (r : ReportParams) : to_json r !! "ci" = JStr <$> ci r.
Proof.
  unfold to_json. rewrite !lookup_put. simpl.
  destruct (ci r); reflexivity.
Qed.

(** A promise that has settled stays as it is. *)
Lemma handle_settled (st : post_state) (ev : net_event) :
  settled st <> Pending -> settled (handle st ev) = settled st.
Proof.
  intros Hs. destruct ev as [sc msg|chunk|err| |err| ]; simpl;
    unfold on_response, on_timeout, ok, ko, listen;
    repeat match goal with
    | |- context [match ?x with _ => _ end] => destruct x eqn:?; simpl
    end; congruence.
Qed.

Lemma run_settled (evs : list net_event) (st : post_state) :
  settled st <> Pending -> settled (fold_left handle evs st) = settled st.
Proof.
  revert st. induction evs as [|ev evs IH]; intros st Hs; simpl.
  - reflexivity.
  - rewrite IH; rewrite handle_settled; auto.
Qed.

(** No handler makes a call on the request. *)
Lemma handle_calls (st : post_state) (ev : net_event) :
  calls (handle st ev) = calls st.
Proof.
  destruct ev as [sc msg|chunk|err| |err| ]; simpl;
    unfold on_response, on_timeout, ok, ko, listen;
    repeat match goal with
    | |- context [match ?x with _ => _ end] => destruct x eqn:?; simpl
    end; reflexivity.
Qed.

Lemma run_calls (evs : list net_event) (st : post_state) :
  calls (fold_left handle evs st) = calls st.
Proof.
  revert st. induction evs as [|ev evs IH]; intros st; simpl.
  - reflexivity.
  - rewrite IH. apply handle_calls.
Qed.

Lemma post_run_app (data : string) (pre evs : list net_event) :
  post_run data (pre ++ evs) = fold_left handle evs (post_run data pre).
Proof. unfold post_run. apply fold_left_app. Qed.

(** ** The disable flag *)

(** C2.  With [CHECKPOINT_DISABLE] set to a truthy value, [ReportRequest]
    resolves at once and leaves everything as it was: the record is not
    touched and the state is the same, so no request was sent, no identity
    file was read or written, no UUID drawn and nothing logged. *)
Theorem ReportRequest_disabled
    (JSON_stringify : json -> completion string) (format : string -> string)
    (h : Host) (r : ReportParams) (s : State) :
  opt_truthy str_truthy (env_CHECKPOINT_DISABLE h) = true ->
  ReportRequest JSON_stringify format h r s = (Fulfilled, r, s).
Proof. intros Hd. unfold ReportRequest. rewrite Hd. reflexivity. Qed.

Lemma ReportRequest_disabled_witness :
  ReportRequest sample_stringify sample_format disabled_host bare_record
    empty_state = (Fulfilled, bare_record, empty_state).
Proof. apply ReportRequest_disabled. reflexivity. Defined.

(** ** The identity store *)

Lemma getId_fresh_file (h : Host) (filePath key : string)
    (comment : option string) (s : State) :
  (files s !! filePath = None \/ files s !! filePath = Some Unparsable) ->
  require_cache s !! filePath = None ->
  getId h filePath key comment s =
  let u := uuid_source h (uuids_drawn s) in
  let obj :=
    <[key := JStr u]>
      (if opt_truthy str_truthy comment then
         {["//" := JStr (replaceAll_newline_space (default "" comment))]}
       else ∅) in
  match write_fails h !! filePath with
  | Some e => (Throw e, snd (uuidv4 h s))
  | None =>
      (Normal (JStr u),
       set_files (<[filePath := Parsed obj]> (files s)) (snd (uuidv4 h s)))
  end.
Proof.
  intros Hf Hc. unfold getId, uuidv4, require, writeFileSync. simpl.
  rewrite Hc.
  assert (Hr : match files s !! filePath with
               | Some (Parsed obj) => false | _ => true end = true)
    by (destruct Hf as [-> | ->]; reflexivity).
  destruct (files s !! filePath) as [[|obj]|]; try discriminate;
    destruct (opt_truthy str_truthy comment);
    destruct (write_fails h !! filePath); reflexivity.
Qed.

Lemma getId_existing (h : Host) (filePath key : string)
    (comment : option string) (s : State) (obj : gmap string json) (v : json) :
  files s !! filePath = Some (Parsed obj) ->
  (require_cache s !! filePath = None \/ require_cache s !! filePath = Some obj) ->
  obj !! key = Some v ->
  truthy v = true ->
  exists s', getId h filePath key comment s = (Normal v, s')
             /\ files s' = files s
             /\ uuids_drawn s' = S (uuids_drawn s)
             /\ requests s' = requests s /\ logged s' = logged s.
Proof.
  intros Hf Hc Hk Ht. unfold getId, uuidv4, require. simpl.
  destruct Hc as [Hc | Hc]; rewrite Hc; [rewrite Hf|]; rewrite Hk; simpl;
    rewrite Ht; eexists; (split; [reflexivity | repeat split]).
Qed.

Lemma replaceAll_newline_space_length (s : string) :
  String.length (replaceAll_newline_space s) = String.length s.
Proof. induction s as [|c s IH]; simpl; congruence. Qed.

Lemma replaceAll_newline_space_clean (s : string) :
  ~ In "010"%char (list_ascii_of_string (replaceAll_newline_space s)).
Proof.
  induction s as [|c s IH]; simpl; [tauto|].
  intros [Hc | Hin]; [|tauto].
  destruct (Ascii.eqb_spec c "010"%char); [discriminate | congruence].
Qed.




(** C6, as amended.  When the identity file parses to an object that holds
    a truthy value under the key, and [require] has not cached other
    contents for the path, [getId] returns that value and writes nothing:
    the files are as before. *)
Theorem getId_returns_existing (h : Host) (filePath key : string)
    (comment : option string) (s : State) (obj : gmap string json) (v : json) :
  files s !! filePath = Some (Parsed obj) ->
  obj !! key = Some v ->
  truthy v = true ->
  (require_cache s !! filePath = None \/ require_cache s !! filePath = Some obj) ->
  exists s', getId h filePath key comment s = (Normal v, s')
             /\ files s' = files s.
Proof.
  intros Hf Hk Ht Hc.
  destruct (getId_existing h filePath key comment s obj v Hf Hc Hk Ht)
    as (s' & Hg & Hfiles & _).
  exists s'. split; assumption.
Qed.

Lemma getId_returns_existing_witness :
  exists s',
    getProjectId dev_host known_project_state =
      (Normal (JStr "0b9c5a3e-7c1d-4c55-9f3e-2f6a1d0e8b77"), s')
    /\ files s' = files known_project_state.
Proof.
  apply (getId_returns_existing dev_host "/work/app/cdktf.json" "projectId" None
           known_project_state
           (<["language" := JStr "typescript"]>
              {[ "projectId" := JStr "0b9c5a3e-7c1d-4c55-9f3e-2f6a1d0e8b77" ]})).
  - reflexivity.
  - reflexivity.
  - reflexivity.
  - left. reflexivity.
Defined.

(** C6 as stated fails on a key that is present with a falsy value: the
    file holds [projectId] (and [language]), yet [getId] returns a new UUID
    instead of the stored value and rewrites the file. *)
Lemma getId_empty_value_rewritten :
  files empty_projectId_state !! "/work/app/cdktf.json" =
    Some (Parsed (<["language" := JStr "typescript"]> {[ "projectId" := JStr "" ]}))
  /\ exists s',
       getProjectId dev_host empty_projectId_state = (Normal (JStr sample_uuid), s')
       /\ files s' !! "/work/app/cdktf.json" =
            Some (Parsed (<["language" := JStr "typescript"]>
                            {[ "projectId" := JStr sample_uuid ]})).
Proof. split; [reflexivity|]. eexists. split; reflexivity. Qed.

(** ** The report builder *)

Lemma require_frame (filePath : string) (s s' : State)
    (o : option (gmap string json)) :
  require filePath s = (o, s') ->
  uuids_drawn s' = uuids_drawn s /\ files s' = files s
  /\ requests s' = requests s /\ logged s' = logged s.
Proof.
  unfold require.
  destruct (require_cache s !! filePath) as [exports|];
    [|destruct (files s !! filePath) as [[|obj]|]];
    intros [= <- <-]; repeat split.
Qed.

Lemma writeFileSync_frame (h : Host) (filePath : string)
    (obj : gmap string json) (s s' : State) (c : completion unit) :
  writeFileSync h filePath obj s = (c, s') ->
  uuids_drawn s' = uuids_drawn s /\ requests s' = requests s
  /\ logged s' = logged s.
Proof.
  unfold writeFileSync.
  destruct (write_fails h !! filePath) as [e|]; intros [= <- <-];
    repeat split.
Qed.

Lemma getId_frame (h : Host) (filePath key : string) (comment : option string)
    (s s' : State) (c : completion json) :
  getId h filePath key comment s = (c, s') ->
  requests s' = requests s /\ logged s' = logged s
  /\ uuids_drawn s' = S (uuids_drawn s).
Proof.
  unfold getId, uuidv4.
  match goal with |- context [require filePath ?s0] =>
    destruct (require filePath s0) as [[jsonFile|] s1] eqn:Hr end;
    apply require_frame in Hr; simpl in Hr;
    destruct Hr as (Hr1 & _ & Hr2 & Hr3).
  - destruct (opt_truthy truthy (jsonFile !! key)).
    + intros [= <- <-]. auto.
    + match goal with |- context [writeFileSync h filePath ?o s1] =>
        destruct (writeFileSync h filePath o s1) as [[u|e] s2] eqn:Hw end;
        apply writeFileSync_frame in Hw; destruct Hw as (Hw1 & Hw2 & Hw3);
        intros [= <- <-]; repeat split; congruence.
  - match goal with |- context [writeFileSync h filePath ?o s1] =>
      destruct (writeFileSync h filePath o s1) as [[u|e] s2] eqn:Hw end;
      apply writeFileSync_frame in Hw; destruct Hw as (Hw1 & Hw2 & Hw3);
      intros [= <- <-]; repeat split; congruence.
Qed.

Lemma getId_truthy (h : Host) (filePath key : string) (comment : option string)
    (s s' : State) (v : json) :
  str_truthy (uuid_source h (uuids_drawn s)) = true ->
  getId h filePath key comment s = (Normal v, s') ->
  truthy v = true.
Proof.
  intros Hu. unfold getId, uuidv4.
  match goal with |- context [require filePath ?s0] =>
    destruct (require filePath s0) as [[jsonFile|] s1] end.
  - destruct (opt_truthy truthy (jsonFile !! key)) eqn:Ht.
    + intros [= <- <-]. destruct (jsonFile !! key); [exact Ht|discriminate].
    + match goal with |- context [writeFileSync h filePath ?o s1] =>
        destruct (writeFileSync h filePath o s1) as [[u|e] s2] end;
        intros [= <- <-]. exact Hu.
  - match goal with |- context [writeFileSync h filePath ?o s1] =>
      destruct (writeFileSync h filePath o s1) as [[u|e] s2] end;
      intros [= <- <-]. exact Hu.
Qed.

Lemma fill_host_fields_spec (h : Host) (r r1 : ReportParams) (s s1 : State) :
  fill_host_fields h r s = (r1, s1) ->
  runID r1 = (if opt_truthy str_truthy (runID r) then runID r
              else Some (uuid_source h (uuids_drawn s)))
  /\ dateTime r1 = Some (default (new_Date h) (dateTime r))
  /\ arch r1 = (if opt_truthy str_truthy (arch r) then arch r
                else Some (os_arch h))
  /\ os r1 = (if opt_truthy str_truthy (os r) then os r
              else Some (os_platform h))
  /\ userId r1 = userId r /\ ci r1 = ci r /\ projectId r1 = projectId r
  /\ requests s1 = requests s /\ logged s1 = logged s
  /\ uuids_drawn s1 = (if opt_truthy str_truthy (runID r) then uuids_drawn s
                       else S (uuids_drawn s)).
Proof.
  unfold fill_host_fields, uuidv4.
  destruct (opt_truthy str_truthy (runID r)) eqn:H1; simpl;
  destruct (dateTime r) eqn:H2; simpl;
  destruct (opt_truthy str_truthy (arch r)) eqn:H3; simpl;
  destruct (opt_truthy str_truthy (os r)) eqn:H4; simpl;
  intros [= <- <-]; simpl; rewrite ?H1, ?H2, ?H3, ?H4; repeat split.
Qed.

Lemma fill_host_fields_fixed (h : Host) (r : ReportParams) (s : State) :
  opt_truthy str_truthy (runID r) = true ->
  is_Some (dateTime r) ->
  (opt_truthy str_truthy (arch r) = true \/ arch r = Some (os_arch h)) ->
  (opt_truthy str_truthy (os r) = true \/ os r = Some (os_platform h)) ->
  fill_host_fields h r s = (r, s).
Proof.
  intros H1 [d H2] H3 H4. unfold fill_host_fields. rewrite H1. simpl.
  rewrite H2. simpl.
  destruct r as [dt ar o pl pr ru ve co la us c pj]; simpl in *.
  destruct (opt_truthy str_truthy ar) eqn:Ha; simpl;
  destruct (opt_truthy str_truthy o) eqn:Ho; simpl;
  unfold set_arch, set_os; simpl;
  destruct H3 as [H3|H3]; destruct H4 as [H4|H4]; subst;
    try discriminate; reflexivity.
Qed.

(** [fill_identity] touches [userId], [ci] and [projectId] only, sends
    nothing and logs nothing.  With a CI system detected, [ci] takes its
    name and [userId] is left as given; without one, [ci] is left as
    given. *)
Lemma fill_identity_spec (h : Host) (r r' : ReportParams) (s s' : State)
    (c : completion unit) :
  fill_identity h r s = (c, r', s') ->
  (runID r' = runID r /\ dateTime r' = dateTime r /\ arch r' = arch r
   /\ os r' = os r)
  /\ (requests s' = requests s /\ logged s' = logged s)
  /\ (opt_truthy str_truthy (ciDetect h) = true ->
        ci r' = ciDetect h /\ userId r' = userId r)
  /\ (opt_truthy str_truthy (ciDetect h) = false -> ci r' = ci r).
Proof.
  unfold fill_identity, getUserId, getProjectId.
  destruct (opt_truthy str_truthy (ciDetect h)) eqn:Hci;
    destruct (opt_truthy truthy (userId r)) eqn:Hu; simpl.
  all: repeat match goal with
    | |- context [getId ?a ?b ?c ?d ?e] =>
        let H := fresh "Hg" in
        destruct (getId a b c d e) as [[?v|?e] ?s] eqn:H;
        apply getId_frame in H; destruct H as (? & ? & ?); simpl
    | |- context [if opt_truthy truthy ?x then _ else _] =>
        destruct (opt_truthy truthy x) eqn:?; simpl
    end.
  all: intros [= <- <- <-]; simpl.
  all: destruct (ciDetect h) as [name|]; simpl in *; try discriminate.
  all: repeat split; try congruence; try (intros; congruence).
Qed.

Lemma fill_identity_fixed (h : Host) (r : ReportParams) (s : State) :
  (opt_truthy truthy (userId r) = true
   \/ opt_truthy str_truthy (ciDetect h) = true) ->
  (opt_truthy str_truthy (ciDetect h) = true -> ci r = ciDetect h) ->
  opt_truthy truthy (projectId r) = true ->
  fill_identity h r s = (Normal tt, r, s).
Proof.
  intros Hu Hc Hp. unfold fill_identity.
  assert (Hcond : negb (opt_truthy truthy (userId r))
                  && negb (opt_truthy str_truthy (ciDetect h)) = false)
    by (destruct Hu as [-> | ->]; simpl; [reflexivity | apply andb_false_r]).
  rewrite Hcond.
  destruct (opt_truthy str_truthy (ciDetect h)) eqn:Hci.
  - specialize (Hc eq_refl). destruct (ciDetect h) as [name|]; [|discriminate].
    simpl. destruct r as [dt ar o pl pr ru ve co la us c pj]; simpl in *.
    subst c. unfold set_ci; simpl. rewrite Hp. reflexivity.
  - rewrite Hp. reflexivity.
Qed.

Lemma fill_defaults_fixed (h : Host) (r : ReportParams) (s : State) :
  populated h r -> fill_defaults h r s = (Normal tt, r, s).
Proof.
  intros (H1 & H2 & H3 & H4 & H5 & H6 & H7). unfold fill_defaults.
  rewrite fill_host_fields_fixed by assumption.
  apply fill_identity_fixed; assumption.
Qed.

Lemma fill_identity_populates (h : Host) (r r' : ReportParams) (s s' : State) :
  (forall n, is_uuid_v4 (uuid_source h n) = true) ->
  fill_identity h r s = (Normal tt, r', s') ->
  (opt_truthy truthy (userId r') = true
   \/ opt_truthy str_truthy (ciDetect h) = true)
  /\ opt_truthy truthy (projectId r') = true.
Proof.
  intros Hv. unfold fill_identity, getUserId, getProjectId.
  destruct (opt_truthy str_truthy (ciDetect h)) eqn:Hci;
    destruct (opt_truthy truthy (userId r)) eqn:Hu; simpl.
  all: repeat match goal with
    | |- context [getId ?a ?b ?c ?d ?e] =>
        let H := fresh "Hg" in
        destruct (getId a b c d e) as [[?v|?e] ?s] eqn:H;
        [apply getId_truthy in H;
           [|apply is_uuid_v4_truthy; apply Hv] |]; simpl
    | |- context [if opt_truthy truthy ?x then _ else _] =>
        destruct (opt_truthy truthy x) eqn:?; simpl
    end.
  all: intros [= <- <-]; simpl in *; auto.
Qed.

Lemma fill_defaults_populates (h : Host) (r r' : ReportParams) (s s' : State) :
  (forall n, is_uuid_v4 (uuid_source h n) = true) ->
  fill_defaults h r s = (Normal tt, r', s') ->
  populated h r'.
Proof.
  intros Hv. unfold fill_defaults.
  destruct (fill_host_fields h r s) as [r1 s1] eqn:Hh. intros Hi.
  apply fill_host_fields_spec in Hh.
  destruct Hh as (Hr & Hd & Ha & Ho & _).
  pose proof (fill_identity_populates h r1 r' s1 s' Hv Hi) as (Hu & Hp).
  apply fill_identity_spec in Hi.
  destruct Hi as ((Er & Ed & Ea & Eo) & _ & Hci & _).
  unfold populated. rewrite Er, Ed, Ea, Eo, Hr, Hd, Ha, Ho.
  repeat split.
  - destruct (opt_truthy str_truthy (runID r)) eqn:E; [exact E|].
    simpl. apply is_uuid_v4_truthy, Hv.
  - eexists; reflexivity.
  - destruct (opt_truthy str_truthy (arch r)) eqn:E; auto.
  - destruct (opt_truthy str_truthy (os r)) eqn:E; auto.
  - exact Hu.
  - intros Hc. apply Hci. exact Hc.
  - exact Hp.
Qed.

Lemma triple_eta {A B C : Type} (x : A * B * C) :
  x = (fst (fst x), snd (fst x), snd x).
Proof. destruct x as [[a b] c]. reflexivity. Qed.

Lemma pair_eta {A B : Type} (x : A * B) : x = (fst x, snd x).
Proof. destruct x as [a b]. reflexivity. Qed.

Lemma ReportRequest_record
    (JSON_stringify : json -> completion string) (format : string -> string)
    (h : Host) (r r' : ReportParams) (s s' : State) (p : promise) :
  opt_truthy str_truthy (env_CHECKPOINT_DISABLE h) = false ->
  ReportRequest JSON_stringify format h r s = (p, r', s') ->
  exists c s1, fill_defaults h r s = (c, r', s1).
Proof.
  intros Hd. unfold ReportRequest. rewrite Hd.
  destruct (fill_defaults h r s) as [[[u|e] r1] s1].
  - destruct (JSON_stringify _) as [data|e]; [|intros [= <- <- <-]; eauto].
    destruct (post _ _ _ _ _) as [[| |e] s2]; intros [= <- <- <-]; eauto.
  - intros [= <- <- <-]; eauto.
Qed.

(** What [fill_identity] does with [userId] outside the CI case: a truthy
    value stays; a falsy one is replaced by what [getUserId] returns. *)
Lemma fill_identity_userId (h : Host) (r r' : ReportParams) (s s' : State)
    (c : completion unit) :
  fill_identity h r s = (c, r', s') ->
  (opt_truthy truthy (userId r) = true -> userId r' = userId r)
  /\ (opt_truthy str_truthy (ciDetect h) = false ->
      opt_truthy truthy (userId r) = false ->
      forall v s1, getUserId h s = (Normal v, s1) -> userId r' = Some v).
Proof.
  unfold fill_identity.
  destruct (opt_truthy truthy (userId r)) eqn:Hu;
    destruct (opt_truthy str_truthy (ciDetect h)) eqn:Hci; cbn [negb andb].
  4:{ destruct (getUserId h s) as [[v0|e0] s0].
      - change (projectId (set_userId v0 r)) with (projectId r).
        destruct (opt_truthy truthy (projectId r));
          [|destruct (getProjectId h s0) as [[v1|e1] s2]];
          intros [= <- <- <-]; (split; [intros [=]|]);
          intros _ _ v s1 [= <- <-]; reflexivity.
      - intros [= <- <- <-]. split; [intros [=]|].
        intros _ _ v s1 [=]. }
  1:{ change (projectId (set_ci (default "" (ciDetect h)) r))
        with (projectId r).
      destruct (opt_truthy truthy (projectId r));
        [|destruct (getProjectId h s) as [[v1|e1] s2]];
        intros [= <- <- <-]; (split; [reflexivity | intros [=]]). }
  1:{ destruct (opt_truthy truthy (projectId r));
        [|destruct (getProjectId h s) as [[v1|e1] s2]];
        intros [= <- <- <-]; (split; [reflexivity | intros _ [=]]). }
  change (projectId (set_ci (default "" (ciDetect h)) r)) with (projectId r).
  destruct (opt_truthy truthy (projectId r));
    [|destruct (getProjectId h s) as [[v1|e1] s2]];
    intros [= <- <- <-]; (split; [intros [=] | intros [=]]).
Qed.

(** C1, as amended.  For a record processed by [ReportRequest] (disable
    flag unset).  If the caller gave no [userId]: when a CI system is
    detected the serialized record carries [ci] with its name and no
    [userId]; and when the caller gave no [ci] either, [userId] and [ci]
    are never both in the serialized record.  A truthy [userId] given by
    the caller is kept as it is.  Under a detected CI system any [userId]
    the caller gave, also an empty one, is left in place and goes out
    together with [ci].  Without CI a falsy [userId] is replaced by the
    value that [getUserId] returns. *)
Theorem userId_ci_exclusive
    (JSON_stringify : json -> completion string) (format : string -> string)
    (h : Host) (r r' : ReportParams) (s s' : State) (p : promise) :
  opt_truthy str_truthy (env_CHECKPOINT_DISABLE h) = false ->
  ReportRequest JSON_stringify format h r s = (p, r', s') ->
  (userId r = None ->
     (forall name, ciDetect h = Some name -> str_truthy name = true ->
        to_json r' !! "ci" = Some (JStr name)
        /\ to_json r' !! "userId" = None)
     /\ (ci r = None ->
         ~ (is_Some (to_json r' !! "userId")
            /\ is_Some (to_json r' !! "ci"))))
  /\ (opt_truthy truthy (userId r) = true ->
      to_json r' !! "userId" = userId r)
  /\ (opt_truthy str_truthy (ciDetect h) = true ->
      to_json r' !! "userId" = userId r
      /\ to_json r' !! "ci" = JStr <$> ciDetect h)
  /\ (opt_truthy str_truthy (ciDetect h) = false ->
      opt_truthy truthy (userId r) = false ->
      forall v s1,
        getUserId h (snd (fill_host_fields h r s)) = (Normal v, s1) ->
        to_json r' !! "userId" = Some v).
Proof.
  intros Hd Hr.
  destruct (ReportRequest_record _ _ _ _ _ _ _ _ Hd Hr) as (c & s1 & Hf).
  unfold fill_defaults in Hf.
  destruct (fill_host_fields h r s) as [r1 s0] eqn:Hh.
  apply fill_host_fields_spec in Hh.
  destruct Hh as (_ & _ & _ & _ & Hu1 & Hc1 & _).
  pose proof (fill_identity_userId _ _ _ _ _ _ Hf) as [Hkeep Hstore].
  apply fill_identity_spec in Hf. destruct Hf as (_ & _ & Hyes & Hno).
  rewrite Hu1 in Hkeep, Hstore.
  rewrite to_json_userId, to_json_ci. cbn [snd].
  split; [|split; [|split]].
  - intros Hu. split.
    + intros name Hn Ht. rewrite Hn in Hyes. destruct (Hyes Ht) as [-> ->].
      split; [reflexivity | congruence].
    + intros Hc [[v Hv] [w Hw]].
      destruct (opt_truthy str_truthy (ciDetect h)) eqn:Hci.
      * destruct (Hyes eq_refl) as [_ E]. congruence.
      * rewrite (Hno eq_refl), Hc1, Hc in Hw. discriminate.
  - exact Hkeep.
  - intros Hci. destruct (Hyes Hci) as [-> ->]. split; [exact Hu1 | reflexivity].
  - exact Hstore.
Qed.

Lemma userId_ci_exclusive_witness :
  to_json (snd (fst (ReportRequest sample_stringify sample_format ci_host
                       bare_record empty_state))) !! "ci"
    = Some (JStr "github-actions")
  /\ to_json (snd (fst (ReportRequest sample_stringify sample_format ci_host
                          bare_record empty_state))) !! "userId" = None.
Proof.
  refine (proj1 (proj1 (userId_ci_exclusive sample_stringify sample_format
                          ci_host bare_record _ empty_state _ _ _ _) _)
            "github-actions" _ _).
  - reflexivity.
  - apply triple_eta.
  - reflexivity.
  - reflexivity.
  - reflexivity.
Defined.

(** C1 as stated fails for a caller-supplied [userId]: on a host where a CI
    system is detected the request completes and the serialized record
    carries both [userId] and [ci]. *)
Lemma userId_and_ci_both_sent :
  fst (fst (ReportRequest sample_stringify sample_format ci_host
              record_with_userId empty_state)) = Fulfilled
  /\ to_json (snd (fst (ReportRequest sample_stringify sample_format ci_host
                          record_with_userId empty_state))) !! "userId"
       = Some (JStr "dev-7")
  /\ to_json (snd (fst (ReportRequest sample_stringify sample_format ci_host
                          record_with_userId empty_state))) !! "ci"
       = Some (JStr "github-actions").
Proof. repeat split. Qed.

(** C7, as amended.  Defaulting sets each of [runID], [dateTime], [arch]
    and [os] exactly when the field is absent or falsy (an empty string),
    to the UUID drawn, the current time and the host's architecture and
    platform, and leaves a truthy value as it is, whether or not the
    identity store throws afterwards.  Defaulting is idempotent: run again
    on the record it completed, it changes neither the record nor the
    state. *)
Theorem fill_defaults_host_fields_and_idempotent
    (h : Host) (r r' : ReportParams) (s s' : State) (c : completion unit) :
  (forall n, is_uuid_v4 (uuid_source h n) = true) ->
  fill_defaults h r s = (c, r', s') ->
  runID r' = (if opt_truthy str_truthy (runID r) then runID r
              else Some (uuid_source h (uuids_drawn s)))
  /\ dateTime r' = Some (default (new_Date h) (dateTime r))
  /\ arch r' = (if opt_truthy str_truthy (arch r) then arch r
                else Some (os_arch h))
  /\ os r' = (if opt_truthy str_truthy (os r) then os r
              else Some (os_platform h))
  /\ (c = Normal tt -> fill_defaults h r' s' = (Normal tt, r', s')).
Proof.
  intros Hv Hf.
  assert (Hfix : c = Normal tt -> fill_defaults h r' s' = (Normal tt, r', s')).
  { intros ->. apply fill_defaults_fixed.
    apply (fill_defaults_populates h r r' s s' Hv Hf). }
  unfold fill_defaults in Hf.
  destruct (fill_host_fields h r s) as [r1 s1] eqn:Hh.
  apply fill_host_fields_spec in Hh.
  destruct Hh as (Hr & Hd & Ha & Ho & _).
  apply fill_identity_spec in Hf.
  destruct Hf as ((Er & Ed & Ea & Eo) & _).
  rewrite Er, Ed, Ea, Eo. auto.
Qed.

Lemma fill_defaults_host_fields_and_idempotent_witness :
  runID (snd (fst (fill_defaults dev_host bare_record empty_state)))
    = Some sample_uuid
  /\ arch (snd (fst (fill_defaults dev_host bare_record empty_state)))
    = Some "x64"
  /\ fill_defaults dev_host
       (snd (fst (fill_defaults dev_host bare_record empty_state)))
       (snd (fill_defaults dev_host bare_record empty_state))
     = (Normal tt,
        snd (fst (fill_defaults dev_host bare_record empty_state)),
        snd (fill_defaults dev_host bare_record empty_state)).
Proof.
  destruct (fill_defaults_host_fields_and_idempotent dev_host bare_record
              (snd (fst (fill_defaults dev_host bare_record empty_state)))
              empty_state
              (snd (fill_defaults dev_host bare_record empty_state))
              (fst (fst (fill_defaults dev_host bare_record empty_state))))
    as (Hr & _ & Ha & _ & Hi).
  - intros n. reflexivity.
  - apply triple_eta.
  - split; [exact Hr|]. split; [exact Ha|]. apply Hi. reflexivity.
Defined.

(** C7 as stated fails in two places: a caller-supplied [ci] is overwritten
    with the detected CI system on a record that has every field, and a
    caller-supplied empty [runID] is overwritten with a new UUID. *)
Lemma fill_defaults_overwrites_supplied_values :
  (ci full_record = Some "jenkins"
   /\ ci (snd (fst (fill_defaults ci_host full_record empty_state)))
        = Some "github-actions")
  /\ (runID record_with_empty_runID = Some ""
      /\ runID (snd (fst (fill_defaults dev_host record_with_empty_runID
                            empty_state))) = Some sample_uuid).
Proof. repeat split. Qed.

(** ** Failure handling of the pipeline *)

Lemma fill_defaults_frame (h : Host) (r r' : ReportParams) (s s' : State)
    (c : completion unit) :
  fill_defaults h r s = (c, r', s') ->
  requests s' = requests s /\ logged s' = logged s.
Proof.
  unfold fill_defaults.
  destruct (fill_host_fields h r s) as [r1 s1] eqn:Hh. intros Hi.
  apply fill_host_fields_spec in Hh.
  destruct Hh as (_ & _ & _ & _ & _ & _ & _ & Hq & Hl & _).
  apply fill_identity_spec in Hi. destruct Hi as (_ & (Hq' & Hl') & _).
  split; congruence.
Qed.

(** The three kinds of transport failure reject the promise of [post]. *)
Lemma post_run_bad_status (data : string) (sc : Z) (msg : string)
    (rest : list net_event) :
  num_truthy sc = true -> includes VALID_STATUS_CODES sc = false ->
  settled (post_run data (EvResponse (Some sc) msg :: rest))
    = Rejected (Error msg).
Proof.
  intros Ht Hi. unfold post_run. cbn [fold_left handle].
  assert (E : forall st, on_response (Some sc) msg st = ko (Error msg) st)
    by (intros st; unfold on_response; rewrite Ht, Hi; reflexivity).
  rewrite E. rewrite run_settled; [reflexivity | discriminate].
Qed.

Lemma post_run_network_fault (data : string) (err : js_error)
    (rest : list net_event) :
  settled (post_run data (EvReqError err :: rest)) = Rejected err.
Proof. unfold post_run. simpl. rewrite run_settled; [reflexivity | discriminate]. Qed.

Lemma post_run_timeout (data : string) (pre rest : list net_event) :
  settled (post_run data pre) = Pending ->
  settled (post_run data (pre ++ EvTimeout :: rest))
    = Rejected (Error "request timeout").
Proof.
  intros Hp. rewrite post_run_app. simpl.
  rewrite run_settled; unfold on_timeout, ko; rewrite Hp;
    [reflexivity | discriminate].
Qed.

(** Once the idle timer has fired, the promise of [post] is settled: a
    request does not hang on a silent server. *)
Lemma post_run_settles (data : string) (evs : list net_event) :
  In EvTimeout evs -> settled (post_run data evs) <> Pending.
Proof.
  intros Hin. apply in_split in Hin. destruct Hin as (pre & rest & ->).
  destruct (settled (post_run data pre)) as [| |e] eqn:Hp.
  - rewrite (post_run_timeout data pre rest Hp). discriminate.
  - rewrite post_run_app, run_settled; rewrite Hp; discriminate.
  - rewrite post_run_app, run_settled; rewrite Hp; discriminate.
Qed.

(** C4, as amended.  Once defaulting has completed and [JSON.stringify]
    has returned the body, [ReportRequest] never rejects: a rejection of
    the transport promise (a status code outside the accepted set, a
    network fault, a timeout) is caught and handed to
    [processLoggerError], exactly once, and [ReportRequest] resolves.  An
    exception thrown by [getUserId] or [getProjectId] during defaulting,
    or by [JSON.stringify], is not caught: [ReportRequest] rejects with
    it, sending and logging nothing. *)
Theorem ReportRequest_absorbs_transport_failures
    (JSON_stringify : json -> completion string) (format : string -> string)
    (h : Host) (r r1 r' : ReportParams) (s s1 s' : State)
    (c : completion unit) (p : promise) :
  opt_truthy str_truthy (env_CHECKPOINT_DISABLE h) = false ->
  fill_defaults h r s = (c, r1, s1) ->
  ReportRequest JSON_stringify format h r s = (p, r', s') ->
  let evs := network h (length (requests s)) in
  r' = r1
  /\ (forall e, c = Throw e ->
        p = Rejected e /\ s' = s1 /\ requests s' = requests s
        /\ logged s' = logged s)
  /\ (forall e, c = Normal tt ->
        JSON_stringify (JObj (to_json r1)) = Throw e ->
        p = Rejected e /\ s' = s1 /\ requests s' = requests s
        /\ logged s' = logged s)
  /\ (forall data, c = Normal tt ->
        JSON_stringify (JObj (to_json r1)) = Normal data ->
        let out := settled (post_run data evs) in
        (forall e, p <> Rejected e)
        /\ length (requests s') = S (length (requests s))
        /\ (forall e, out = Rejected e ->
              p = Fulfilled
              /\ logged s' = (logged s ++ [ProcessLoggerError (err_message e)])%list)
        /\ (out = Fulfilled -> p = Fulfilled /\ logged s' = logged s)
        /\ (out = Pending -> p = Pending /\ logged s' = logged s)
        /\ (forall sc msg rest,
              evs = EvResponse (Some sc) msg :: rest ->
              num_truthy sc = true -> includes VALID_STATUS_CODES sc = false ->
              p = Fulfilled /\ logged s' = (logged s ++ [ProcessLoggerError msg])%list)
        /\ (forall err rest, evs = EvReqError err :: rest ->
              p = Fulfilled
              /\ logged s' = (logged s ++ [ProcessLoggerError (err_message err)])%list)
        /\ (forall rest, evs = EvTimeout :: rest ->
              p = Fulfilled
              /\ logged s' = (logged s ++ [ProcessLoggerError "request timeout"])%list)).
Proof.
  intros Hd Hf Hr evs.
  pose proof (fill_defaults_frame _ _ _ _ _ _ Hf) as [Hq Hl].
  unfold ReportRequest in Hr. rewrite Hd, Hf in Hr.
  destruct c as [u|e0].
  2:{ injection Hr as <- <- <-.
      split; [reflexivity|]. split; [|split; [intros e [=]|intros d [=]]].
      intros e [= <-]. repeat split; assumption. }
  destruct (JSON_stringify (JObj (to_json r1))) as [data0|e0] eqn:Hj.
  2:{ injection Hr as <- <- <-.
      split; [reflexivity|]. split; [intros e [=]|].
      split; [|intros d _ [=]].
      intros e _ [= <-]. repeat split; assumption. }
  split; [|split; [intros e [=]|split; [intros e _ [=]|]]].
  { unfold post in Hr. destruct (settled (post_run _ _));
      injection Hr as <- <- <-; reflexivity. }
  intros data _ [= <-] out.
  unfold post in Hr. rewrite Hq in Hr. fold evs in Hr. fold out in Hr.
  assert (Hcases :
    length (requests s') = S (length (requests s))
    /\ (forall e, out = Rejected e ->
          p = Fulfilled
          /\ logged s' = (logged s ++ [ProcessLoggerError (err_message e)])%list)
    /\ (out = Fulfilled -> p = Fulfilled /\ logged s' = logged s)
    /\ (out = Pending -> p = Pending /\ logged s' = logged s)).
  { destruct out as [| |e]; injection Hr as <- <- <-; simpl;
      rewrite ?length_app, ?Hq, ?Hl; simpl;
      (split; [lia|]);
      repeat split; try discriminate; try congruence. }
  destruct Hcases as (Hlen & Hrej & Hful & Hpen).
  split.
  { intros e ->. destruct out as [| |e1] eqn:Ho.
    - destruct (Hpen eq_refl) as [[=] _].
    - destruct (Hful eq_refl) as [[=] _].
    - destruct (Hrej e1 eq_refl) as [[=] _]. }
  split; [exact Hlen|]. split; [exact Hrej|]. split; [exact Hful|].
  split; [exact Hpen|]. split; [|split].
  + intros sc msg rest He Ht Hi. apply (Hrej (Error msg)).
    unfold out. rewrite He. apply post_run_bad_status; assumption.
  + intros err rest He. apply Hrej.
    unfold out. rewrite He. apply post_run_network_fault.
  + intros rest He. apply (Hrej (Error "request timeout")).
    unfold out. rewrite He. apply (post_run_timeout _ []). reflexivity.
Qed.

Lemma ReportRequest_absorbs_transport_failures_witness :
  fst (fst (ReportRequest sample_stringify sample_format failing_server_host
              bare_record empty_state)) = Fulfilled
  /\ logged (snd (ReportRequest sample_stringify sample_format
                    failing_server_host bare_record empty_state))
       = [ProcessLoggerError "Internal Server Error"].
Proof.
  pose proof (ReportRequest_absorbs_transport_failures
                sample_stringify sample_format failing_server_host bare_record
                (snd (fst (fill_defaults failing_server_host bare_record
                             empty_state)))
                (snd (fst (ReportRequest sample_stringify sample_format
                             failing_server_host bare_record empty_state)))
                empty_state
                (snd (fill_defaults failing_server_host bare_record empty_state))
                (snd (ReportRequest sample_stringify sample_format
                        failing_server_host bare_record empty_state))
                (fst (fst (fill_defaults failing_server_host bare_record
                             empty_state)))
                (fst (fst (ReportRequest sample_stringify sample_format
                             failing_server_host bare_record empty_state)))
                eq_refl (triple_eta _) (triple_eta _)) as (_ & _ & _ & H).
  destruct (H "{}" eq_refl eq_refl) as (_ & _ & _ & _ & _ & Hst & _).
  exact (Hst 500%Z "Internal Server Error" [] eq_refl eq_refl eq_refl).
Defined.

(** C4 as stated fails when the identity store throws: in a home directory
    without [.cdktf] the write of the user identity file throws, and
    [ReportRequest] rejects with that error. *)
Lemma ReportRequest_rejects_on_identity_failure :
  fst (fst (ReportRequest sample_stringify sample_format bare_home_host
              bare_record empty_state)) = Rejected ENOENT.
Proof. reflexivity. Qed.

(** The same happens when [JSON.stringify] throws: with a BigInt in the
    payload, defaulting completes, both identity files are written, and
    [ReportRequest] rejects with the TypeError without sending a
    request. *)
Lemma ReportRequest_rejects_on_BigInt_payload :
  fst (fst (ReportRequest sample_stringify sample_format dev_host
              record_with_BigInt empty_state)) = Rejected BigInt_error
  /\ requests (snd (ReportRequest sample_stringify sample_format dev_host
                      record_with_BigInt empty_state)) = [].
Proof. split; reflexivity. Qed.

Lemma ReportRequest_outcome
    (JSON_stringify : json -> completion string) (format : string -> string)
    (h : Host) (r r1 : ReportParams) (s s1 : State) (c : completion unit) :
  opt_truthy str_truthy (env_CHECKPOINT_DISABLE h) = false ->
  fill_defaults h r s = (c, r1, s1) ->
  ReportRequest JSON_stringify format h r s =
  match c with
  | Throw e => (Rejected e, r1, s1)
  | Normal _ =>
      match JSON_stringify (JObj (to_json r1)) with
      | Throw e => (Rejected e, r1, s1)
      | Normal data =>
          let sent :=
            post format h (BASE_URL +:+ "telemetry/" +:+ product r1) data s1 in
          match fst sent with
          | Rejected e =>
              (Fulfilled, r1, processLoggerError (err_message e) (snd sent))
          | p => (p, r1, snd sent)
          end
      end
  end.
Proof.
  intros Hd Hf. unfold ReportRequest. rewrite Hd, Hf.
  destruct c as [u|e]; [|reflexivity].
  destruct (JSON_stringify (JObj (to_json r1))) as [data|e]; [|reflexivity].
  cbv zeta. destruct (post _ _ _ _ _) as [[| |e] s2]; reflexivity.
Qed.



(** ** The transport *)

Lemma run_data_chunks (chunks : list string) (st : post_state) :
  res_listening st = true ->
  settled (fold_left handle (map EvData chunks) st) = settled st
  /\ res_listening (fold_left handle (map EvData chunks) st) = true.
Proof.
  revert st. induction chunks as [|chunk chunks IH]; intros st Hl; simpl.
  - auto.
  - rewrite Hl.
    destruct (IH (mk_post (settled st) true (received st ++ [chunk])%list
                    (calls st)) eq_refl) as [Hs Hr].
    split; assumption.
Qed.

Lemma on_response_rejects_iff (sc : option Z) (msg : string) (st : post_state) :
  settled st = Pending ->
  (exists e, settled (on_response sc msg st) = Rejected e)
  <-> (opt_truthy num_truthy sc = true
       /\ includes VALID_STATUS_CODES (default 0%Z sc) = false).
Proof.
  intros Hp. destruct st as [p l rc cl]. simpl in Hp. subst p.
  unfold on_response, ko, listen.
  destruct sc as [n|]; cbn [opt_truthy default from_option id settled];
    [destruct (num_truthy n);
       [destruct (includes VALID_STATUS_CODES n)|]|];
    cbn [negb settled]; split; intros H;
    try (destruct H as [e H]; discriminate);
    try (destruct H as [H1 H2]; discriminate);
    eauto.
Qed.

Lemma on_response_falsy (statusCode : option Z) (statusMessage : string)
    (st : post_state) :
  opt_truthy num_truthy statusCode = false ->
  on_response statusCode statusMessage st = listen st.
Proof.
  intros Hf. unfold on_response. destruct statusCode as [n|]; [|reflexivity].
  simpl in Hf. rewrite Hf. reflexivity.
Qed.

(** After a response that passed the status check and any number of
    chunks, the promise is still pending and the listeners are attached. *)
Lemma post_run_receiving (data : string) (statusCode : option Z)
    (statusMessage : string) (chunks : list string) :
  (forall st, on_response statusCode statusMessage st = listen st) ->
  settled (post_run data (EvResponse statusCode statusMessage
                            :: map EvData chunks)) = Pending
  /\ res_listening (post_run data (EvResponse statusCode statusMessage
                                     :: map EvData chunks)) = true.
Proof.
  intros E. unfold post_run. cbn [fold_left handle]. rewrite E.
  match goal with |- context [fold_left handle (map EvData chunks) ?st0] =>
    destruct (run_data_chunks chunks st0 eq_refl) as [Hs Hl] end.
  rewrite Hs, Hl. split; reflexivity.
Qed.

(** C10.  When the response carries no status code, or the status code 0,
    the check against [VALID_STATUS_CODES] is skipped although the code is
    not one of 200 and 201: the response callback leaves the promise
    pending, it stays pending while chunks arrive, and it is fulfilled
    when the response ends (rejected instead if the stream fails or the
    timer fires first).  The response callback rejects exactly when the
    status code is truthy and outside [VALID_STATUS_CODES], with the status
    message as error; for any other status code the promise is still
    pending after the callback. *)
Theorem post_falsy_status_fulfilled
    (format : string -> string) (h : Host) (url data : string) (s : State)
    (statusCode : option Z) (statusMessage : string)
    (chunks : list string) :
  opt_truthy num_truthy statusCode = false ->
  let arrived := EvResponse statusCode statusMessage :: map EvData chunks in
  includes VALID_STATUS_CODES (default 0%Z statusCode) = false
  /\ (network h (length (requests s)) = arrived ->
      fst (post format h url data s) = Pending)
  /\ (forall rest,
        network h (length (requests s)) = (arrived ++ EvEnd :: rest)%list ->
        fst (post format h url data s) = Fulfilled)
  /\ (forall err rest,
        network h (length (requests s))
          = (arrived ++ EvResError err :: rest)%list ->
        fst (post format h url data s) = Rejected err)
  /\ (forall rest,
        network h (length (requests s)) = (arrived ++ EvTimeout :: rest)%list ->
        fst (post format h url data s) = Rejected (Error "request timeout"))
  /\ (forall sc msg rest,
        network h (length (requests s)) = EvResponse sc msg :: rest ->
        (opt_truthy num_truthy sc = true ->
         includes VALID_STATUS_CODES (default 0%Z sc) = false ->
         fst (post format h url data s) = Rejected (Error msg))
        /\ (opt_truthy num_truthy sc = false
            \/ includes VALID_STATUS_CODES (default 0%Z sc) = true ->
            rest = [] ->
            fst (post format h url data s) = Pending)).
Proof.
  intros Hf arrived.
  destruct (post_run_receiving data statusCode statusMessage chunks
              (fun st => on_response_falsy statusCode statusMessage st Hf))
    as [Hpend Hlisten].
  fold arrived in Hpend, Hlisten.
  split; [|split; [|split; [|split; [|split]]]].
  - destruct statusCode as [n|]; [|reflexivity]. simpl in Hf |- *.
    unfold num_truthy in Hf. apply negb_false_iff in Hf.
    apply Z.eqb_eq in Hf. subst n. reflexivity.
  - intros Hn. unfold post. simpl. rewrite Hn. exact Hpend.
  - intros rest Hn. unfold post. cbn [fst]. rewrite Hn, post_run_app.
    cbn [fold_left handle]. rewrite Hlisten.
    rewrite run_settled; unfold ok; rewrite Hpend; simpl;
      [reflexivity | discriminate].
  - intros err rest Hn. unfold post. cbn [fst]. rewrite Hn, post_run_app.
    cbn [fold_left handle]. rewrite Hlisten.
    rewrite run_settled; unfold ko; rewrite Hpend; simpl;
      [reflexivity | discriminate].
  - intros rest Hn. unfold post. cbn [fst]. rewrite Hn.
    apply post_run_timeout. exact Hpend.
  - intros sc msg rest Hn. unfold post. cbn [fst]. rewrite Hn. split.
    + intros Ht Hi. destruct sc as [n|]; [|discriminate].
      apply post_run_bad_status; assumption.
    + intros Hok ->. unfold post_run. cbn [fold_left handle].
      assert (E : on_response sc msg
                    (mk_post Pending false []
                       [ReqSetTimeout 1000; ReqWrite data; ReqEnd; ReqOnError])
                  = listen (mk_post Pending false []
                       [ReqSetTimeout 1000; ReqWrite data; ReqEnd; ReqOnError])).
      { unfold on_response. destruct sc as [n|]; [|reflexivity].
        cbn [opt_truthy default from_option id] in Hok.
        destruct (num_truthy n); [|reflexivity].
        destruct Hok as [Hok | Hok]; [discriminate|]. rewrite Hok. reflexivity. }
      rewrite E. reflexivity.
Qed.

Lemma post_falsy_status_fulfilled_witness :
  fst (post sample_format
         (mk_host None None "x64" "linux" "/home/dev" "/work/app" "0.4.1"
            "2021-06-01T12:00:00.000Z" (fun _ => sample_uuid) ∅
            (fun _ => [EvResponse (Some 0%Z) ""; EvData "{}"; EvEnd]))
         telemetry_url "{}" empty_state) = Fulfilled.
Proof.
  refine (proj1 (proj2 (proj2 (post_falsy_status_fulfilled sample_format _
                                 telemetry_url "{}" empty_state (Some 0%Z) ""
                                 ["{}"] _))) [] _).
  - reflexivity.
  - reflexivity.
Defined.

Lemma post_request (format : string -> string) (h : Host) (url data : string)
    (s : State) :
  requests (snd (post format h url data s)) =
  (requests s ++
     [mk_request (format url) "POST"
        (mk_headers "application/json" (js_length data) "HashiCorp/cdktf-cli")
        [ReqSetTimeout 1000; ReqWrite data; ReqEnd; ReqOnError]])%list.
Proof.
  unfold post, add_request. simpl. unfold post_run. rewrite run_calls.
  reflexivity.
Qed.

(** C8, as amended.  Every request is given an idle timeout of 1000 ms,
    and when the timer fires while the promise is pending (in particular
    when no response has arrived) the promise is rejected with the error
    "request timeout".  The calls made on the request are [setTimeout],
    [write], [end] and [on("error")] and nothing else: the timeout
    callback rejects and does not abort the request. *)
Theorem post_timeout_rejects
    (format : string -> string) (h : Host) (url data : string) (s : State)
    (pre rest : list net_event) :
  network h (length (requests s)) = (pre ++ EvTimeout :: rest)%list ->
  settled (post_run data pre) = Pending ->
  fst (post format h url data s) = Rejected (Error "request timeout")
  /\ exists q,
       requests (snd (post format h url data s)) = (requests s ++ [q])%list
       /\ req_calls q = [ReqSetTimeout 1000; ReqWrite data; ReqEnd; ReqOnError].
Proof.
  intros Hn Hp. split.
  - unfold post. simpl. rewrite Hn. apply post_run_timeout. exact Hp.
  - eexists. split; [apply post_request | reflexivity].
Qed.

Lemma post_timeout_rejects_witness :
  fst (post sample_format silent_server_host telemetry_url "{}" empty_state)
    = Rejected (Error "request timeout").
Proof.
  refine (proj1 (post_timeout_rejects sample_format silent_server_host
                   telemetry_url "{}" empty_state [] [] _ _)).
  - reflexivity.
  - reflexivity.
Defined.

(** C8 as stated fails in its second half: the server stays silent, the
    timer fires and the promise is rejected, yet no request that was sent
    has been aborted or destroyed. *)
Lemma post_timeout_does_not_abort :
  network silent_server_host 0 = [EvTimeout]
  /\ fst (post sample_format silent_server_host telemetry_url "{}" empty_state)
       = Rejected (Error "request timeout")
  /\ Forall (fun q => ~ In ReqDestroy (req_calls q))
       (requests (snd (post sample_format silent_server_host telemetry_url
                         "{}" empty_state))).
Proof.
  split; [reflexivity|]. split; [reflexivity|].
  rewrite post_request. simpl. constructor; [|constructor].
  simpl. intros [H|[H|[H|[H|[]]]]]; discriminate.
Qed.

(** ** The Content-Length header *)

Lemma post_Content_Length (format : string -> string) (h : Host)
    (url data : string) (s : State) :
  Content_Length <$> (req_headers <$> last (requests (snd (post format h url data s))))
    = Some (js_length data).
Proof. rewrite post_request, last_snoc. reflexivity. Qed.

(** On a body of ASCII characters [data.length] is the number of bytes. *)
Lemma js_length_ascii (data : string) :
  Forall (fun c => nat_of_ascii c < 128) (list_ascii_of_string data) ->
  js_length data = byte_length data.
Proof.
  unfold byte_length. induction data as [|c data IH]; simpl; intros Hall.
  - reflexivity.
  - inversion Hall as [|c' l Hc Hl]; subst. rewrite (IH Hl).
    unfold utf16_units. destruct (Nat.ltb_spec (nat_of_ascii c) 128); [reflexivity | lia].
Qed.

(** C9 fails on the code.  For the body
    [{"product":"cdktf","payload":{"name":"é"}}] the request carries
    Content-Length 42, the value of [data.length], while the body written
    to the socket is 43 bytes long. *)
Theorem post_Content_Length_non_ascii :
  Content_Length <$>
    (req_headers <$>
       last (requests (snd (post sample_format dev_host telemetry_url
                              accented_body empty_state))))
    = Some 42
  /\ byte_length accented_body = 43
  /\ In (ReqWrite accented_body)
       (concat (req_calls <$>
                  requests (snd (post sample_format dev_host telemetry_url
                                   accented_body empty_state)))).
Proof.
  split; [reflexivity|]. split; [reflexivity|].
  simpl. right. left. reflexivity.
Qed.

(** * Further properties of the code *)

(** ** Strings and paths *)

Lemma append_length (a b : string) :
  String.length (a +:+ b) = String.length a + String.length b.
Proof. induction a as [|c a IH]; simpl; [reflexivity | rewrite IH; reflexivity]. Qed.

Lemma append_assoc (a b c : string) : (a +:+ b) +:+ c = a +:+ (b +:+ c).
Proof.
  induction a as [|x a IH]; [reflexivity|].
  change (String x ((a +:+ b) +:+ c) = String x (a +:+ (b +:+ c))).
  rewrite IH. reflexivity.
Qed.

(** Two equal strings have the same suffix of a given length. *)
Lemma append_suffix_inj (a b x y : string) :
  String.length x = String.length y -> a +:+ x = b +:+ y -> x = y.
Proof.
  revert b. induction a as [|c a IH]; intros b Hlen Heq.
  - change (x = b +:+ y) in Heq. subst x. rewrite append_length in Hlen.
    destruct b as [|d b]; [reflexivity | simpl in Hlen; lia].
  - destruct b as [|d b].
    + change (String c (a +:+ x) = y) in Heq. subst y. simpl in Hlen.
      rewrite append_length in Hlen. lia.
    + change (String c (a +:+ x) = String d (b +:+ y)) in Heq.
      injection Heq as _ Heq. apply (IH b Hlen Heq).
Qed.

Lemma append_nil_r (a : string) : a +:+ "" = a.
Proof.
  induction a as [|c a IH]; [reflexivity|].
  change (String c (a +:+ "") = String c a). rewrite IH. reflexivity.
Qed.

Lemma split_slash_nonempty (s : string) : split_slash s <> [].
Proof.
  destruct s as [|c s]; simpl; [discriminate|].
  destruct (Ascii.eqb c "/"%char); [discriminate|].
  destruct (split_slash s); discriminate.
Qed.

(** Splitting at a slash that is known to be there. *)
Lemma split_slash_app (a b : string) :
  split_slash (a +:+ "/" +:+ b) = (split_slash a ++ split_slash b)%list.
Proof.
  induction a as [|c a IH].
  - reflexivity.
  - change (split_slash (String c (a +:+ "/" +:+ b))
            = (split_slash (String c a) ++ split_slash b)%list).
    cbn [split_slash]. rewrite IH.
    destruct (Ascii.eqb c "/"%char); [reflexivity|].
    pose proof (split_slash_nonempty a) as Hne.
    destruct (split_slash a) as [|seg segs]; [contradiction | reflexivity].
Qed.

(** What the loop of [path.resolve] has put in front of [acc] is empty or
    ends with a slash. *)
Lemma resolve_loop_prefix (l : list string) (cwd acc : string) :
  exists P b,
    resolve_loop l cwd acc = (P +:+ acc, b)
    /\ (P = "" \/ exists Q, P = Q +:+ "/").
Proof.
  revert acc. induction l as [|path rest IH]; intros acc; cbn [resolve_loop].
  - destruct (String.eqb cwd "").
    + exists "", false. split; [reflexivity | left; reflexivity].
    + exists (cwd +:+ "/"), (starts_with_slash cwd).
      split; [rewrite append_assoc; reflexivity | right; eexists; reflexivity].
  - destruct (String.eqb path ""); [apply IH|].
    destruct (starts_with_slash path).
    + exists (path +:+ "/"), true.
      split; [rewrite append_assoc; reflexivity | right; eexists; reflexivity].
    + destruct (IH (path +:+ "/" +:+ acc)) as (P & b & Hl & _).
      exists (P +:+ path +:+ "/"), b. split.
      * rewrite Hl, !append_assoc. reflexivity.
      * right. exists (P +:+ path). rewrite append_assoc. reflexivity.
Qed.

Lemma join_slash_snoc (segs : list string) (x : string) :
  exists A, join_slash (segs ++ [x]) = A +:+ x.
Proof.
  induction segs as [|seg segs IH].
  - exists "". reflexivity.
  - destruct IH as [A HA].
    change ((seg :: segs) ++ [x])%list with (seg :: (segs ++ [x]))%list.
    cbn [join_slash]. destruct (segs ++ [x])%list as [|y ys] eqn:E.
    + destruct segs; discriminate.
    + rewrite HA. exists (seg +:+ "/" +:+ A).
      rewrite !append_assoc. reflexivity.
Qed.

(** A plain name as last argument of [path.resolve] is the end of the
    result. *)
Lemma path_resolve_last (cwd : string) (args : list string) (name : string) :
  split_slash name = [name] ->
  String.eqb name "" = false ->
  String.eqb name "." = false ->
  String.eqb name ".." = false ->
  starts_with_slash name = false ->
  exists A, path_resolve cwd (args ++ [name]) = A +:+ name.
Proof.
  intros Hsplit He Hd Hdd Hs. unfold path_resolve.
  rewrite rev_app_distr. cbn [rev app resolve_loop]. rewrite He, Hs.
  destruct (resolve_loop_prefix (rev args) cwd (name +:+ "/" +:+ ""))
    as (P & b & Hl & HP).
  rewrite Hl.
  assert (Hsegs : exists pre,
            split_slash (P +:+ name +:+ "/" +:+ "") = (pre ++ [name; ""])%list).
  { destruct HP as [-> | [Q ->]].
    - exists []. change ("" +:+ name +:+ "/" +:+ "") with (name +:+ "/" +:+ "").
      rewrite split_slash_app, Hsplit. reflexivity.
    - exists (split_slash Q). rewrite append_assoc.
      rewrite split_slash_app. f_equal.
      rewrite split_slash_app, Hsplit. reflexivity. }
  destruct Hsegs as [pre Hpre].
  assert (Hnorm : exists stk,
            normalizeString (P +:+ name +:+ "/" +:+ "") (negb b)
            = (stk ++ [name])%list).
  { unfold normalizeString. rewrite Hpre, fold_left_app.
    exists (fold_left (normalize_step (negb b)) pre []).
    cbn [fold_left]. unfold normalize_step at 2. cbn [String.eqb orb].
    unfold normalize_step. rewrite He, Hd, Hdd. reflexivity. }
  destruct Hnorm as [stk Hstk]. rewrite Hstk.
  destruct (join_slash_snoc stk name) as [A HA]. rewrite HA.
  destruct b.
  - exists ("/" +:+ A). rewrite append_assoc. reflexivity.
  - assert (Hne : String.eqb (A +:+ name) "" = false).
    { destruct A as [|c A]; [exact He | reflexivity]. }
    rewrite Hne. exists A. reflexivity.
Qed.

Lemma path_resolve_examples :
  path_resolve "/" ["/"; "cdktf.json"] = "/cdktf.json"
  /\ path_resolve "/work/app" ["/home/dev/"; ".cdktf"; "config.json"]
       = "/home/dev/.cdktf/config.json"
  /\ path_resolve "/work/app" ["dev"; ".cdktf"; "config.json"]
       = "/work/app/dev/.cdktf/config.json"
  /\ path_resolve "/work/app" ["../lib//x"; "."; "cdktf.json"]
       = "/work/lib/x/cdktf.json"
  /\ path_resolve "/work/app" [""; "cdktf.json"] = "/work/app/cdktf.json"
  /\ path_resolve "/" ["/.."; ".."] = "/".
Proof. repeat split. Qed.

(** The user identity file and the project identity file are never the
    same file, whatever the home and working directories:
    [config.json] and [cdktf.json] differ. *)
Lemma identity_paths_differ (h : Host) :
  path_resolve (process_cwd h) [os_homedir h; ".cdktf"; "config.json"]
  <> path_resolve (process_cwd h) [process_cwd h; "cdktf.json"].
Proof.
  destruct (path_resolve_last (process_cwd h) [os_homedir h; ".cdktf"]
              "config.json") as [A HA]; try reflexivity.
  destruct (path_resolve_last (process_cwd h) [process_cwd h]
              "cdktf.json") as [B HB]; try reflexivity.
  cbn [app] in HA, HB. rewrite HA, HB. intros Heq.
  assert (Hu : A +:+ "config.json" = (A +:+ "c") +:+ "onfig.json")
    by (symmetry; apply append_assoc).
  rewrite Hu in Heq.
  apply append_suffix_inj in Heq; [discriminate | reflexivity].
Qed.

(** ** More on the identity store *)

Lemma require_other (filePath q : string) (s s' : State)
    (o : option (gmap string json)) :
  require filePath s = (o, s') -> q <> filePath ->
  require_cache s' !! q = require_cache s !! q.
Proof.
  unfold require.
  destruct (require_cache s !! filePath) as [exports|];
    [|destruct (files s !! filePath) as [[|obj]|]];
    intros [= <- <-] Hq; simpl; try reflexivity.
  apply lookup_insert_ne. congruence.
Qed.

Lemma writeFileSync_store (h : Host) (filePath : string)
    (obj : gmap string json) (s s' : State) (c : completion unit) :
  writeFileSync h filePath obj s = (c, s') ->
  require_cache s' = require_cache s
  /\ (forall q, q <> filePath -> files s' !! q = files s !! q)
  /\ (forall e, c = Throw e -> files s' = files s).
Proof.
  unfold writeFileSync.
  destruct (write_fails h !! filePath) as [e|]; intros [= <- <-]; simpl.
  - repeat split; auto.
  - split; [reflexivity|]. split; [|intros e [=]].
    intros q Hq. apply lookup_insert_ne. congruence.
Qed.

(** [getId] reads and writes one file only, and when it throws it has
    written nothing. *)
Lemma getId_store (h : Host) (filePath key : string) (comment : option string)
    (s s' : State) (c : completion json) :
  getId h filePath key comment s = (c, s') ->
  (forall q, q <> filePath ->
     files s' !! q = files s !! q
     /\ require_cache s' !! q = require_cache s !! q)
  /\ (forall e, c = Throw e -> files s' = files s).
Proof.
  assert (Hwrite : forall obj s1 s2 (w : completion unit) (v : json),
    files s1 = files s ->
    (forall q, q <> filePath -> require_cache s1 !! q = require_cache s !! q) ->
    writeFileSync h filePath obj s1 = (w, s2) ->
    (match w with Throw e => (Throw e, s2) | Normal _ => (Normal v, s2) end)
      = (c, s') ->
    (forall q, q <> filePath ->
       files s' !! q = files s !! q
       /\ require_cache s' !! q = require_cache s !! q)
    /\ (forall e, c = Throw e -> files s' = files s)).
  { intros obj s1 s2 w v Hf1 Hc1 Hw Hres.
    apply writeFileSync_store in Hw. destruct Hw as (Hc & Hf & Ht).
    destruct w as [u|e]; injection Hres as <- <-.
    - split; [|intros e [=]].
      intros q Hq. rewrite (Hf q Hq), Hc, Hf1, (Hc1 q Hq). auto.
    - split.
      + intros q Hq. rewrite (Hf q Hq), Hc, Hf1, (Hc1 q Hq). auto.
      + intros e' _. rewrite (Ht e eq_refl). exact Hf1. }
  unfold getId, uuidv4.
  match goal with |- context [require filePath ?s0] =>
    destruct (require filePath s0) as [[jsonFile|] s1] eqn:Hr end;
    pose proof (require_frame _ _ _ _ Hr) as (_ & Hrf & _);
    pose proof (fun q => require_other filePath q _ _ _ Hr) as Hro;
    simpl in Hrf, Hro.
  - destruct (opt_truthy truthy (jsonFile !! key)).
    + intros [= <- <-]. split; [|intros e [=]].
      intros q Hq. rewrite Hrf, (Hro q Hq). auto.
    + match goal with |- context [writeFileSync h filePath ?o s1] =>
        destruct (writeFileSync h filePath o s1) as [w s2] eqn:Hw end.
      intros Hres.
      apply (Hwrite _ _ _ _ (JStr (uuid_source h (uuids_drawn s))) Hrf Hro Hw).
      destruct w; exact Hres.
  - match goal with |- context [writeFileSync h filePath ?o s1] =>
      destruct (writeFileSync h filePath o s1) as [w s2] eqn:Hw end.
    intros Hres.
    apply (Hwrite _ _ _ _ (JStr (uuid_source h (uuids_drawn s))) Hrf Hro Hw).
    destruct w; exact Hres.
Qed.

Lemma getId_cold_missing_key (h : Host) (filePath key : string)
    (comment : option string) (s : State) (obj : gmap string json) :
  files s !! filePath = Some (Parsed obj) ->
  require_cache s !! filePath = None ->
  opt_truthy truthy (obj !! key) = false ->
  write_fails h !! filePath = None ->
  getId h filePath key comment s =
  (Normal (JStr (uuid_source h (uuids_drawn s))),
   mk_state (S (uuids_drawn s))
     (<[filePath := Parsed (<[key := JStr (uuid_source h (uuids_drawn s))]> obj)]>
        (files s))
     (<[filePath := obj]> (require_cache s)) (requests s) (logged s)).
Proof.
  intros Hf Hc Hk Hw. unfold getId, uuidv4, require, writeFileSync. simpl.
  rewrite Hc, Hf, Hk, Hw. reflexivity.
Qed.

Lemma getId_cached_missing_key (h : Host) (filePath key : string)
    (comment : option string) (s : State) (obj : gmap string json) :
  require_cache s !! filePath = Some obj ->
  opt_truthy truthy (obj !! key) = false ->
  write_fails h !! filePath = None ->
  getId h filePath key comment s =
  (Normal (JStr (uuid_source h (uuids_drawn s))),
   mk_state (S (uuids_drawn s))
     (<[filePath := Parsed (<[key := JStr (uuid_source h (uuids_drawn s))]> obj)]>
        (files s))
     (require_cache s) (requests s) (logged s)).
Proof.
  intros Hc Hk Hw. unfold getId, uuidv4, require, writeFileSync. simpl.
  rewrite Hc, Hk, Hw. reflexivity.
Qed.

(** X1.  When the identity file parses to an object that lacks the key (or
    holds a falsy value under it), [require] has no cached module with
    other contents for the path, and the file can be written, [getId]
    returns the UUID it drew and rewrites the file as the old object with
    the key set to that UUID: every other field keeps its value, and the
    explanatory comment is not added, whether or not one was passed. *)
Theorem getId_merges_key_into_file (h : Host) (filePath key : string)
    (comment : option string) (s : State) (obj : gmap string json) :
  files s !! filePath = Some (Parsed obj) ->
  (require_cache s !! filePath = None \/ require_cache s !! filePath = Some obj) ->
  opt_truthy truthy (obj !! key) = false ->
  write_fails h !! filePath = None ->
  exists (obj' : gmap string json) (s' : State),
    getId h filePath key comment s
      = (Normal (JStr (uuid_source h (uuids_drawn s))), s')
    /\ files s' !! filePath = Some (Parsed obj')
    /\ obj' !! key = Some (JStr (uuid_source h (uuids_drawn s)))
    /\ (forall k, k <> key -> obj' !! k = obj !! k).
Proof.
  intros Hf Hc Hk Hw.
  exists (<[key := JStr (uuid_source h (uuids_drawn s))]> obj).
  destruct Hc as [Hc | Hc]; eexists;
    (split;
     [first [apply (getId_cold_missing_key h filePath key comment s obj Hf Hc Hk Hw)
            |apply (getId_cached_missing_key h filePath key comment s obj Hc Hk Hw)]
     |]);
    simpl; (split; [apply lookup_insert_eq|]);
    (split; [apply lookup_insert_eq|]);
    intros k Hne; apply lookup_insert_ne; congruence.
Qed.

Lemma getId_merges_key_into_file_witness :
  exists (obj' : gmap string json) (s' : State),
    getId dev_host "/work/app/cdktf.json" "projectId" (Some "about this file")
      new_project_state = (Normal (JStr sample_uuid), s')
    /\ files s' !! "/work/app/cdktf.json" = Some (Parsed obj')
    /\ obj' !! "projectId" = Some (JStr sample_uuid)
    /\ obj' !! "language" = Some (JStr "typescript")
    /\ obj' !! "//" = None.
Proof.
  destruct (getId_merges_key_into_file dev_host "/work/app/cdktf.json"
              "projectId" (Some "about this file") new_project_state
              {[ "language" := JStr "typescript" ]})
    as (obj' & s' & Hg & Hf & Hk & Hother).
  - reflexivity.
  - left. reflexivity.
  - reflexivity.
  - reflexivity.
  - exists obj', s'. split; [exact Hg|]. split; [exact Hf|].
    split; [exact Hk|]. split.
    + rewrite Hother by discriminate. reflexivity.
    + rewrite Hother by discriminate. reflexivity.
Defined.



(** X3.  The module cache makes the identifier unstable within one process
    when the file existed without the key: the first call loads the file,
    draws a UUID and writes it; the second call is served the cached
    object, which still lacks the key, so it draws the next UUID, returns
    it instead of the stored one, and overwrites the file with it. *)
Theorem getId_stale_module_regenerates (h : Host) (filePath key : string)
    (comment comment' : option string) (s : State) (obj : gmap string json) :
  files s !! filePath = Some (Parsed obj) ->
  require_cache s !! filePath = None ->
  opt_truthy truthy (obj !! key) = false ->
  write_fails h !! filePath = None ->
  exists s1 s2,
    getId h filePath key comment s
      = (Normal (JStr (uuid_source h (uuids_drawn s))), s1)
    /\ files s1 !! filePath
         = Some (Parsed (<[key := JStr (uuid_source h (uuids_drawn s))]> obj))
    /\ getId h filePath key comment' s1
         = (Normal (JStr (uuid_source h (S (uuids_drawn s)))), s2)
    /\ files s2 !! filePath
         = Some (Parsed (<[key := JStr (uuid_source h (S (uuids_drawn s)))]> obj)).
Proof.
  intros Hf Hc Hk Hw.
  rewrite (getId_cold_missing_key h filePath key comment s obj Hf Hc Hk Hw).
  eexists. eexists. split; [reflexivity|].
  split; [simpl; apply lookup_insert_eq|].
  rewrite (getId_cached_missing_key h filePath key comment' _ obj);
    [| simpl; apply lookup_insert_eq | exact Hk | exact Hw].
  split; [reflexivity|]. simpl. apply lookup_insert_eq.
Qed.

Lemma getId_stale_module_regenerates_witness :
  exists s1 s2,
    getProjectId counting_host new_project_state
      = (Normal (JStr sample_uuid), s1)
    /\ getProjectId counting_host s1 = (Normal (JStr second_uuid), s2)
    /\ files s2 !! "/work/app/cdktf.json"
         = Some (Parsed (<["projectId" := JStr second_uuid]>
                           {[ "language" := JStr "typescript" ]})).
Proof.
  destruct (getId_stale_module_regenerates counting_host "/work/app/cdktf.json"
              "projectId" None None new_project_state
              {[ "language" := JStr "typescript" ]})
    as (s1 & s2 & H1 & _ & H2 & H3).
  - reflexivity.
  - reflexivity.
  - reflexivity.
  - reflexivity.
  - exists s1, s2. split; [exact H1|]. split; [exact H2 | exact H3].
Defined.

(** ** More on the transport *)

Lemma includes_valid (sc : Z) :
  includes VALID_STATUS_CODES sc = true <-> sc = 200%Z \/ sc = 201%Z.
Proof.
  unfold includes, VALID_STATUS_CODES. simpl.
  destruct (Z.eqb_spec sc 200); destruct (Z.eqb_spec sc 201); simpl;
    split; intros H; auto; try discriminate; destruct H; congruence.
Qed.

Lemma on_response_accepted (sc : Z) (msg : string) (st : post_state) :
  sc = 200%Z \/ sc = 201%Z -> on_response (Some sc) msg st = listen st.
Proof.
  intros H. apply includes_valid in H. unfold on_response. rewrite H.
  destruct (num_truthy sc); reflexivity.
Qed.

(** X4.  The outcome of a complete exchange is decided by the status code
    alone: with 200 or 201 the promise is fulfilled when the response ends,
    whatever chunks arrived and whatever follows; with any other non-zero
    code it is rejected with the status message as error message, and the
    response body plays no part. *)
Theorem post_outcome_by_status
    (format : string -> string) (h : Host) (url data : string) (s : State)
    (sc : Z) (msg : string) (chunks : list string) (rest : list net_event) :
  network h (length (requests s)) =
    EvResponse (Some sc) msg :: (map EvData chunks ++ EvEnd :: rest) ->
  (sc = 200%Z \/ sc = 201%Z -> fst (post format h url data s) = Fulfilled)
  /\ (sc <> 0%Z -> sc <> 200%Z -> sc <> 201%Z ->
      fst (post format h url data s) = Rejected (Error msg)).
Proof.
  intros Hn. unfold post. simpl. rewrite Hn. split.
  - intros Hsc. unfold post_run. cbn [fold_left handle].
    rewrite (on_response_accepted sc msg _ Hsc), fold_left_app.
    cbn [fold_left handle].
    match goal with |- context [fold_left handle (map EvData chunks) ?st0] =>
      destruct (run_data_chunks chunks st0 eq_refl) as [Hs Hl] end.
    rewrite Hl. rewrite run_settled; unfold ok; rewrite Hs; simpl;
      [reflexivity | discriminate].
  - intros H0 H200 H201. apply post_run_bad_status.
    + unfold num_truthy. destruct (Z.eqb_spec sc 0); [contradiction|reflexivity].
    + destruct (includes VALID_STATUS_CODES sc) eqn:E; [|reflexivity].
      apply includes_valid in E. destruct E; contradiction.
Qed.

Lemma post_outcome_by_status_witness :
  fst (post sample_format created_host telemetry_url "{}" empty_state)
    = Fulfilled.
Proof.
  refine (proj1 (post_outcome_by_status sample_format created_host
                   telemetry_url "{}" empty_state 201%Z "Created"
                   ["{"; "}"] [] _) _).
  - reflexivity.
  - right. reflexivity.
Defined.

(** X5.  When an accepted response breaks off with an error on the response
    stream, the promise is rejected with that error. *)
Theorem post_response_stream_error
    (format : string -> string) (h : Host) (url data : string) (s : State)
    (sc : Z) (msg : string) (chunks : list string) (err : js_error)
    (rest : list net_event) :
  sc = 200%Z \/ sc = 201%Z ->
  network h (length (requests s)) =
    EvResponse (Some sc) msg :: (map EvData chunks ++ EvResError err :: rest) ->
  fst (post format h url data s) = Rejected err.
Proof.
  intros Hsc Hn. unfold post. simpl. rewrite Hn. unfold post_run.
  cbn [fold_left handle].
  rewrite (on_response_accepted sc msg _ Hsc), fold_left_app.
  cbn [fold_left handle].
  match goal with |- context [fold_left handle (map EvData chunks) ?st0] =>
    destruct (run_data_chunks chunks st0 eq_refl) as [Hs Hl] end.
  rewrite Hl. rewrite run_settled; unfold ko; rewrite Hs; simpl;
    [reflexivity | discriminate].
Qed.

Lemma post_response_stream_error_witness :
  fst (post sample_format broken_stream_host telemetry_url "{}" empty_state)
    = Rejected ECONNRESET.
Proof.
  refine (post_response_stream_error sample_format broken_stream_host
            telemetry_url "{}" empty_state 200%Z "OK" ["{"] ECONNRESET [] _ _).
  - left. reflexivity.
  - reflexivity.
Defined.

(** X6.  The first settlement stands: once the events delivered so far have
    fulfilled or rejected the promise, no later event changes the outcome
    (a timer that fires after the response has ended does not turn success
    into failure, and a response that arrives after the timeout does not
    undo the rejection). *)
Theorem post_first_settlement_stands
    (format : string -> string) (h : Host) (url data : string) (s : State)
    (pre rest : list net_event) :
  network h (length (requests s)) = (pre ++ rest)%list ->
  settled (post_run data pre) <> Pending ->
  fst (post format h url data s) = settled (post_run data pre).
Proof.
  intros Hn Hp. unfold post. simpl. rewrite Hn, post_run_app.
  apply run_settled. exact Hp.
Qed.

Lemma post_first_settlement_stands_witness :
  fst (post sample_format late_timeout_host telemetry_url "{}" empty_state)
    = Fulfilled.
Proof.
  refine (post_first_settlement_stands sample_format late_timeout_host
            telemetry_url "{}" empty_state
            [EvResponse (Some 200%Z) "OK"; EvEnd] [EvTimeout] _ _).
  - reflexivity.
  - discriminate.
Defined.

(** ** More on the Content-Length header *)

Lemma utf8_scan_length (s : string) (k : nat) :
  utf8_scan k s = true -> js_length s + k <= String.length s.
Proof.
  revert k. induction s as [|c s IH]; intros k;
    cbn [utf8_scan js_length String.length]; cbv zeta.
  - intros Hk. apply Nat.eqb_eq in Hk. lia.
  - unfold utf16_units. destruct k as [|k];
    destruct (Nat.ltb_spec (nat_of_ascii c) 128);
    destruct (Nat.ltb_spec (nat_of_ascii c) 192);
    destruct (Nat.ltb_spec (nat_of_ascii c) 224);
    destruct (Nat.ltb_spec (nat_of_ascii c) 240);
    destruct (Nat.leb_spec 128 (nat_of_ascii c));
    try lia; cbn [andb]; try discriminate;
    intros Hs; apply IH in Hs; lia.
Qed.

Lemma is_ascii_js_length (s : string) :
  is_ascii s = true -> js_length s = String.length s.
Proof.
  unfold is_ascii. induction s as [|c s IH];
    cbn [js_length String.length list_ascii_of_string forallb];
    [reflexivity|].
  intros H. apply andb_true_iff in H. destruct H as [Hc Hs].
  unfold utf16_units. rewrite Hc, (IH Hs). reflexivity.
Qed.

Lemma js_length_full_is_ascii (s : string) :
  utf8_scan 0 s = true -> js_length s = String.length s -> is_ascii s = true.
Proof.
  unfold is_ascii. induction s as [|c s IH];
    cbn [utf8_scan js_length String.length list_ascii_of_string forallb];
    cbv zeta; [reflexivity|].
  unfold utf16_units.
  destruct (Nat.ltb_spec (nat_of_ascii c) 128);
  destruct (Nat.ltb_spec (nat_of_ascii c) 192);
  destruct (Nat.ltb_spec (nat_of_ascii c) 224);
  destruct (Nat.ltb_spec (nat_of_ascii c) 240);
  try lia; cbn [andb]; try discriminate; intros Hs Hl.
  - apply IH; [exact Hs | lia].
  - apply utf8_scan_length in Hs. lia.
  - apply utf8_scan_length in Hs. lia.
  - apply utf8_scan_length in Hs. lia.
Qed.

(** X7.  For a body that is well-formed UTF-8, the Content-Length header
    that [post] sets never exceeds the number of bytes written, and it
    equals that number exactly when the body is all ASCII: any character
    outside ASCII makes the header too small. *)
Theorem Content_Length_exact_iff_ascii
    (format : string -> string) (h : Host) (url data : string) (s : State) :
  utf8_valid data = true ->
  exists n,
    Content_Length <$>
      (req_headers <$> last (requests (snd (post format h url data s))))
      = Some n
    /\ n <= byte_length data
    /\ (n = byte_length data <-> is_ascii data = true).
Proof.
  intros Hv. exists (js_length data).
  split; [rewrite post_request, last_snoc; reflexivity|].
  unfold byte_length. split.
  - apply utf8_scan_length in Hv. lia.
  - split; [apply js_length_full_is_ascii; exact Hv | apply is_ascii_js_length].
Qed.

Lemma Content_Length_exact_iff_ascii_witness :
  exists n,
    Content_Length <$>
      (req_headers <$>
         last (requests (snd (post sample_format dev_host telemetry_url
                                accented_body empty_state))))
      = Some n
    /\ n <= 43
    /\ (n = 43 <-> is_ascii accented_body = true).
Proof.
  apply (Content_Length_exact_iff_ascii sample_format dev_host telemetry_url
           accented_body empty_state).
  reflexivity.
Defined.

(** ** More on the pipeline *)

Lemma fill_host_fields_rest (h : Host) (r r1 : ReportParams) (s s1 : State) :
  fill_host_fields h r s = (r1, s1) ->
  (files s1 = files s /\ require_cache s1 = require_cache s)
  /\ (product r1 = product r /\ payload r1 = payload r
      /\ version r1 = version r /\ command r1 = command r
      /\ language r1 = language r).
Proof.
  unfold fill_host_fields, uuidv4.
  destruct (opt_truthy str_truthy (runID r)); simpl;
  destruct (dateTime r); simpl;
  destruct (opt_truthy str_truthy (arch r)); simpl;
  destruct (opt_truthy str_truthy (os r)); simpl;
  intros [= <- <-]; simpl; repeat split.
Qed.

Lemma fill_identity_rest (h : Host) (r r' : ReportParams) (s s' : State)
    (c : completion unit) :
  fill_identity h r s = (c, r', s') ->
  product r' = product r /\ payload r' = payload r
  /\ version r' = version r /\ command r' = command r
  /\ language r' = language r.
Proof.
  unfold fill_identity.
  destruct (negb (opt_truthy truthy (userId r))
            && negb (opt_truthy str_truthy (ciDetect h)));
    [destruct (getUserId h s) as [[v|e] s1]|];
    destruct (opt_truthy str_truthy (ciDetect h)); simpl;
    repeat match goal with
    | |- context [if opt_truthy truthy ?x then _ else _] =>
        destruct (opt_truthy truthy x); simpl
    | |- context [getProjectId h ?s0] =>
        destruct (getProjectId h s0) as [[?v|?e] ?s]; simpl
    end;
    intros [= <- <- <-]; simpl; repeat split.
Qed.

(** What [fill_identity] does to the files and the module cache. *)
Lemma fill_identity_store (h : Host) (r r' : ReportParams) (s s' : State)
    (c : completion unit) :
  fill_identity h r s = (c, r', s') ->
  (forall q, q <> user_identity_path h -> q <> project_identity_path h ->
     files s' !! q = files s !! q
     /\ require_cache s' !! q = require_cache s !! q)
  /\ (opt_truthy truthy (userId r) = true
      \/ opt_truthy str_truthy (ciDetect h) = true ->
      files s' !! user_identity_path h = files s !! user_identity_path h
      /\ require_cache s' !! user_identity_path h
           = require_cache s !! user_identity_path h)
  /\ (opt_truthy truthy (userId r) = true
      \/ opt_truthy str_truthy (ciDetect h) = true ->
      opt_truthy truthy (projectId r) = true ->
      s' = s).
Proof.
  unfold fill_identity, getUserId, getProjectId.
  fold (user_identity_path h). fold (project_identity_path h).
  pose proof (identity_paths_differ h) as Hne.
  fold (user_identity_path h) in Hne. fold (project_identity_path h) in Hne.
  destruct (opt_truthy truthy (userId r)) eqn:Hu;
    destruct (opt_truthy str_truthy (ciDetect h)) eqn:Hci; simpl.
  all: repeat match goal with
    | |- context [getId ?a ?b ?c ?d ?e] =>
        let H := fresh "Hg" in
        destruct (getId a b c d e) as [[?v|?e] ?s] eqn:H;
        apply getId_store in H; destruct H as [? _]; simpl
    | |- context [if opt_truthy truthy ?x then _ else _] =>
        destruct (opt_truthy truthy x) eqn:?; simpl
    end.
  all: intros [= <- <- <-].
  all: repeat match goal with
    | H : forall q, q <> _ -> _ /\ _ |- _ =>
        let H1 := fresh "Hf" in
        let H2 := fresh "Hc" in
        assert (H1 := fun q Hq => proj1 (H q Hq));
        assert (H2 := fun q Hq => proj2 (H q Hq)); clear H
    end.
  all: split; [intros q Hq1 Hq2; rewrite ?Hf, ?Hc, ?Hf0, ?Hc0 by assumption;
                 auto|].
  all: split;
    [intros Hor;
       first [destruct Hor; discriminate
             |rewrite ?Hf, ?Hc by assumption; auto]
    |intros Hor Hp; try reflexivity; try discriminate;
       destruct Hor; discriminate].
Qed.

Lemma fill_defaults_store (h : Host) (r r' : ReportParams) (s s' : State)
    (c : completion unit) :
  fill_defaults h r s = (c, r', s') ->
  (forall q, q <> user_identity_path h -> q <> project_identity_path h ->
     files s' !! q = files s !! q
     /\ require_cache s' !! q = require_cache s !! q)
  /\ (opt_truthy truthy (userId r) = true
      \/ opt_truthy str_truthy (ciDetect h) = true ->
      files s' !! user_identity_path h = files s !! user_identity_path h
      /\ require_cache s' !! user_identity_path h
           = require_cache s !! user_identity_path h)
  /\ (opt_truthy truthy (userId r) = true
      \/ opt_truthy str_truthy (ciDetect h) = true ->
      opt_truthy truthy (projectId r) = true ->
      files s' = files s /\ require_cache s' = require_cache s).
Proof.
  unfold fill_defaults.
  destruct (fill_host_fields h r s) as [r1 s1] eqn:Hh. intros Hi.
  pose proof (fill_host_fields_rest _ _ _ _ _ Hh) as [[Hf Hc] _].
  apply fill_host_fields_spec in Hh.
  destruct Hh as (_ & _ & _ & _ & Hu & _ & Hp & _).
  apply fill_identity_store in Hi. destruct Hi as (H1 & H2 & H3).
  rewrite Hu in H2, H3. rewrite Hp in H3. rewrite <- Hf, <- Hc.
  split; [exact H1|]. split; [exact H2|].
  intros Hor Hpj. rewrite (H3 Hor Hpj). auto.
Qed.

Lemma ReportRequest_store
    (JSON_stringify : json -> completion string) (format : string -> string)
    (h : Host) (r r' : ReportParams) (s s' : State) (p : promise) :
  ReportRequest JSON_stringify format h r s = (p, r', s') ->
  (opt_truthy str_truthy (env_CHECKPOINT_DISABLE h) = true /\ r' = r /\ s' = s)
  \/ (opt_truthy str_truthy (env_CHECKPOINT_DISABLE h) = false
      /\ exists c s1,
           fill_defaults h r s = (c, r', s1)
           /\ files s' = files s1
           /\ require_cache s' = require_cache s1
           /\ uuids_drawn s' = uuids_drawn s1).
Proof.
  unfold ReportRequest.
  destruct (opt_truthy str_truthy (env_CHECKPOINT_DISABLE h)).
  - intros [= <- <- <-]. left. auto.
  - right. split; [reflexivity|].
    destruct (fill_defaults h r s) as [[[u|e] r1] s1].
    + destruct (JSON_stringify (JObj (to_json r1))) as [data|e].
      * unfold post in H. simpl in H.
        destruct (settled (post_run _ _)) as [| |e]; injection H as <- <- <-;
          exists (Normal u), s1; repeat split.
      * injection H as <- <- <-. exists (Normal u), s1. repeat split.
    + injection H as <- <- <-. exists (Throw e), s1. repeat split.
Qed.

(** X8.  [ReportRequest] reads and writes no file but the two identity
    files, [path.resolve(os.homedir(), ".cdktf", "config.json")] and
    [path.resolve(process.cwd(), "cdktf.json")]: whatever the outcome,
    every other file and every other entry of the module cache is as it
    was. *)
Theorem ReportRequest_touches_only_identity_files
    (JSON_stringify : json -> completion string) (format : string -> string)
    (h : Host) (r r' : ReportParams) (s s' : State) (p : promise) (q : string) :
  ReportRequest JSON_stringify format h r s = (p, r', s') ->
  q <> path_resolve (process_cwd h) [os_homedir h; ".cdktf"; "config.json"] ->
  q <> path_resolve (process_cwd h) [process_cwd h; "cdktf.json"] ->
  files s' !! q = files s !! q
  /\ require_cache s' !! q = require_cache s !! q.
Proof.
  intros Hr Hq1 Hq2. apply ReportRequest_store in Hr.
  destruct Hr as [(_ & _ & ->) | (_ & c & s1 & Hf & Ef & Ec & _)]; [auto|].
  apply fill_defaults_store in Hf. destruct Hf as (H1 & _).
  rewrite Ef, Ec. apply H1; assumption.
Qed.

Lemma ReportRequest_touches_only_identity_files_witness :
  files (snd (ReportRequest sample_stringify sample_format dev_host bare_record
                (mk_state 0 {[ "/work/app/main.ts" := Unparsable ]} ∅ [] [])))
    !! "/work/app/main.ts" = Some Unparsable.
Proof.
  refine (proj1 (ReportRequest_touches_only_identity_files sample_stringify
                   sample_format dev_host bare_record _
                   (mk_state 0 {[ "/work/app/main.ts" := Unparsable ]} ∅ [] [])
                   _ _ "/work/app/main.ts" (triple_eta _) _ _)).
  - discriminate.
  - discriminate.
Defined.

Lemma fill_defaults_supplied_ids (h : Host) (r r' : ReportParams)
    (s s' : State) (c : completion unit) :
  opt_truthy truthy (userId r) = true ->
  opt_truthy truthy (projectId r) = true ->
  fill_defaults h r s = (c, r', s') ->
  c = Normal tt /\ userId r' = userId r /\ projectId r' = projectId r
  /\ files s' = files s /\ require_cache s' = require_cache s.
Proof.
  intros Hu Hp. unfold fill_defaults.
  destruct (fill_host_fields h r s) as [r1 s1] eqn:Hh.
  pose proof (fill_host_fields_rest _ _ _ _ _ Hh) as [[Hf Hc] _].
  apply fill_host_fields_spec in Hh.
  destruct Hh as (_ & _ & _ & _ & Hu1 & _ & Hp1 & _).
  rewrite <- Hu1 in Hu. rewrite <- Hp1 in Hp.
  unfold fill_identity. rewrite Hu. simpl.
  destruct (opt_truthy str_truthy (ciDetect h)); simpl; rewrite Hp;
    intros [= <- <- <-]; simpl; auto.
Qed.

Lemma ReportRequest_completed_rejection
    (JSON_stringify : json -> completion string) (format : string -> string)
    (h : Host) (r r1 r' : ReportParams) (s s1 s' : State) (u : unit)
    (p : promise) :
  opt_truthy str_truthy (env_CHECKPOINT_DISABLE h) = false ->
  fill_defaults h r s = (Normal u, r1, s1) ->
  ReportRequest JSON_stringify format h r s = (p, r', s') ->
  forall e, p = Rejected e -> JSON_stringify (JObj (to_json r1)) = Throw e.
Proof.
  intros Hd Hf Hr e ->.
  rewrite (ReportRequest_outcome _ _ _ _ _ _ _ _ Hd Hf) in Hr.
  destruct (JSON_stringify (JObj (to_json r1))) as [data|e0]; [|congruence].
  cbv zeta in Hr. destruct (fst (post _ _ _ _ _)); discriminate.
Qed.

(** X9.  When the caller supplies a truthy [userId] and a truthy
    [projectId], [ReportRequest] does not go to the identity store at all:
    the files and the module cache are unchanged and both values are kept
    as given.  The call can then reject only with an exception of
    [JSON.stringify]. *)
Theorem ReportRequest_supplied_ids_skip_store
    (JSON_stringify : json -> completion string) (format : string -> string)
    (h : Host) (r r' : ReportParams) (s s' : State) (p : promise) :
  opt_truthy truthy (userId r) = true ->
  opt_truthy truthy (projectId r) = true ->
  ReportRequest JSON_stringify format h r s = (p, r', s') ->
  files s' = files s /\ require_cache s' = require_cache s
  /\ userId r' = userId r /\ projectId r' = projectId r
  /\ forall e, p = Rejected e -> JSON_stringify (JObj (to_json r')) = Throw e.
Proof.
  intros Hu Hp Hr.
  pose proof (ReportRequest_store _ _ _ _ _ _ _ _ Hr)
    as [(Hd & -> & ->) | (Hd & c & s1 & Hf & Ef & Ec & _)].
  - unfold ReportRequest in Hr. rewrite Hd in Hr. injection Hr as <-.
    repeat split; discriminate.
  - destruct (fill_defaults_supplied_ids _ _ _ _ _ _ Hu Hp Hf)
      as (-> & Eu & Ep & Hfs & Hcs).
    split; [congruence|]. split; [congruence|].
    split; [exact Eu|]. split; [exact Ep|].
    apply (ReportRequest_completed_rejection _ _ _ _ _ _ _ _ _ _ _ Hd Hf Hr).
Qed.

Lemma ReportRequest_supplied_ids_skip_store_witness :
  files (snd (ReportRequest sample_stringify sample_format bare_home_host
                full_record empty_state)) = files empty_state
  /\ userId (snd (fst (ReportRequest sample_stringify sample_format
                         bare_home_host full_record empty_state)))
       = Some (JStr "dev-7").
Proof.
  destruct (ReportRequest_supplied_ids_skip_store sample_stringify
              sample_format bare_home_host full_record _ empty_state _ _
              eq_refl eq_refl (triple_eta _)) as (Hf & _ & Hu & _).
  split; [exact Hf | exact Hu].
Defined.

(** X10.  When a CI system is detected, [ReportRequest] leaves the user
    identity file alone: it is neither read through [require] nor created
    nor rewritten, and the record's [userId] stays as the caller gave
    it. *)
Theorem ReportRequest_ci_leaves_user_file
    (JSON_stringify : json -> completion string) (format : string -> string)
    (h : Host) (r r' : ReportParams) (s s' : State) (p : promise) :
  opt_truthy str_truthy (ciDetect h) = true ->
  ReportRequest JSON_stringify format h r s = (p, r', s') ->
  files s' !! path_resolve (process_cwd h) [os_homedir h; ".cdktf"; "config.json"]
    = files s !! path_resolve (process_cwd h) [os_homedir h; ".cdktf"; "config.json"]
  /\ require_cache s' !! path_resolve (process_cwd h) [os_homedir h; ".cdktf"; "config.json"]
       = require_cache s !! path_resolve (process_cwd h) [os_homedir h; ".cdktf"; "config.json"]
  /\ userId r' = userId r.
Proof.
  intros Hci Hr.
  pose proof (ReportRequest_store _ _ _ _ _ _ _ _ Hr)
    as [(Hd & -> & ->) | (Hd & c & s1 & Hf & Ef & Ec & _)]; [auto|].
  pose proof (fill_defaults_store _ _ _ _ _ _ Hf) as (_ & H2 & _).
  destruct (H2 (or_intror Hci)) as [Hfu Hcu].
  unfold user_identity_path in Hfu, Hcu. rewrite Ef, Ec.
  split; [exact Hfu|]. split; [exact Hcu|].
  unfold fill_defaults in Hf.
  destruct (fill_host_fields h r s) as [r1 s0] eqn:Hh.
  apply fill_host_fields_spec in Hh.
  destruct Hh as (_ & _ & _ & _ & Hu1 & _).
  apply fill_identity_spec in Hf. destruct Hf as (_ & _ & Hyes & _).
  destruct (Hyes Hci) as [_ Hu2]. congruence.
Qed.

Lemma ReportRequest_ci_leaves_user_file_witness :
  files (snd (ReportRequest sample_stringify sample_format ci_host bare_record
                empty_state)) !! "/home/dev/.cdktf/config.json" = None.
Proof.
  refine (proj1 (ReportRequest_ci_leaves_user_file sample_stringify
                   sample_format ci_host bare_record _ empty_state _ _ _
                   (triple_eta _))).
  reflexivity.
Defined.

Lemma lookup_put_ne (k k' : string) (o : option json) (m : gmap string json) :
  k <> k' -> put k o m !! k' = m !! k'.
Proof.
  intros Hne. unfold put. destruct o as [v|]; [|reflexivity].
  apply lookup_insert_ne. exact Hne.
Qed.

Lemma lookup_put_eq (k : string) (o : option json) (m : gmap string json) :
  put k o m !! k = match o with Some v => Some v | None => m !! k end.
Proof.
  unfold put. destruct o as [v|]; [apply lookup_insert_eq | reflexivity].
Qed.

Ltac to_json_key :=
  unfold to_json;
  repeat (rewrite lookup_put_ne by discriminate);
  rewrite lookup_put_eq;
  match goal with
  | |- match ?o with _ => _ end = _ =>
      destruct o; cbn [fmap option_fmap option_map];
      [reflexivity
      |repeat (rewrite lookup_put_ne by discriminate); apply lookup_empty]
  end.

Lemma to_json_fields (r : ReportParams) :
  to_json r !! "product" = Some (JStr (product r))
  /\ to_json r !! "payload" = Some (JObj (payload r))
  /\ to_json r !! "runID" = JStr <$> runID r
  /\ to_json r !! "dateTime" = JStr <$> dateTime r
  /\ to_json r !! "arch" = JStr <$> arch r
  /\ to_json r !! "os" = JStr <$> os r
  /\ to_json r !! "projectId" = projectId r
  /\ to_json r !! "version" = JStr <$> version r
  /\ to_json r !! "command" = JStr <$> command r
  /\ to_json r !! "language" = language r.
Proof.
  split.
  { unfold to_json. repeat (rewrite lookup_put_ne by discriminate).
    apply lookup_put_eq. }
  split.
  { unfold to_json. repeat (rewrite lookup_put_ne by discriminate).
    apply lookup_put_eq. }
  repeat split; to_json_key.
Qed.

Lemma fill_defaults_rest (h : Host) (r r' : ReportParams) (s s' : State)
    (c : completion unit) :
  fill_defaults h r s = (c, r', s') ->
  product r' = product r /\ payload r' = payload r
  /\ version r' = version r /\ command r' = command r
  /\ language r' = language r.
Proof.
  unfold fill_defaults.
  destruct (fill_host_fields h r s) as [r1 s1] eqn:Hh. intros Hi.
  apply fill_host_fields_rest in Hh. destruct Hh as [_ (H1 & H2 & H3 & H4 & H5)].
  apply fill_identity_rest in Hi. destruct Hi as (I1 & I2 & I3 & I4 & I5).
  repeat split; congruence.
Qed.

Lemma ReportRequest_sends (JSON_stringify : json -> completion string)
    (format : string -> string) (h : Host) (r r1 r' : ReportParams)
    (s s1 s' : State) (u : unit) (p : promise) (data : string) :
  opt_truthy str_truthy (env_CHECKPOINT_DISABLE h) = false ->
  fill_defaults h r s = (Normal u, r1, s1) ->
  JSON_stringify (JObj (to_json r1)) = Normal data ->
  ReportRequest JSON_stringify format h r s = (p, r', s') ->
  r' = r1
  /\ (forall e, p <> Rejected e)
  /\ requests s' =
     (requests s ++
        [mk_request (format (BASE_URL +:+ "telemetry/" +:+ product r)) "POST"
           (mk_headers "application/json" (js_length data)
              "HashiCorp/cdktf-cli")
           [ReqSetTimeout 1000; ReqWrite data; ReqEnd; ReqOnError]])%list.
Proof.
  intros Hd Hf Hj Hr.
  pose proof (fill_defaults_frame _ _ _ _ _ _ Hf) as [Hq _].
  pose proof (fill_defaults_rest _ _ _ _ _ _ Hf) as (Hp & _).
  rewrite (ReportRequest_outcome _ _ _ _ _ _ _ _ Hd Hf), Hj in Hr.
  cbv zeta in Hr.
  pose proof (post_request format h (BASE_URL +:+ "telemetry/" +:+ product r1)
                data s1) as Hreq.
  rewrite Hq in Hreq. rewrite <- Hp.
  destruct (fst (post _ _ _ _ _)); injection Hr as <- <- <-;
    (split; [reflexivity|]); (split; [intros e0; discriminate|]);
    unfold processLoggerError, add_log; cbn [requests]; exact Hreq.
Qed.

(** X11.  Every record that [ReportRequest] sends is complete.  When the
    call does not reject (reporting enabled, [uuidv4] returning version-4
    UUIDs), exactly one request was added, a POST to the telemetry URL of
    the caller's [product] whose body is the text that [JSON.stringify]
    returned for the final record, and
    that record has [product], [payload], [runID], [dateTime], [arch],
    [os] and [projectId], and at least one of [userId] and [ci]. *)
Theorem sent_record_is_complete
    (JSON_stringify : json -> completion string) (format : string -> string)
    (h : Host) (r r' : ReportParams) (s s' : State) (p : promise) :
  (forall n, is_uuid_v4 (uuid_source h n) = true) ->
  opt_truthy str_truthy (env_CHECKPOINT_DISABLE h) = false ->
  ReportRequest JSON_stringify format h r s = (p, r', s') ->
  (forall e, p <> Rejected e) ->
  (exists q data,
     requests s' = (requests s ++ [q])%list
     /\ req_url q = format (BASE_URL +:+ "telemetry/" +:+ product r)
     /\ req_method q = "POST"
     /\ JSON_stringify (JObj (to_json r')) = Normal data
     /\ In (ReqWrite data) (req_calls q))
  /\ to_json r' !! "product" = Some (JStr (product r))
  /\ to_json r' !! "payload" = Some (JObj (payload r))
  /\ is_Some (to_json r' !! "runID")
  /\ is_Some (to_json r' !! "dateTime")
  /\ is_Some (to_json r' !! "arch")
  /\ is_Some (to_json r' !! "os")
  /\ is_Some (to_json r' !! "projectId")
  /\ (is_Some (to_json r' !! "userId") \/ is_Some (to_json r' !! "ci")).
Proof.
  intros Hv Hd Hr Hp.
  destruct (fill_defaults h r s) as [[[[]|e] r1] s1] eqn:Hf.
  2:{ exfalso. apply (Hp e).
      rewrite (ReportRequest_outcome _ _ _ _ _ _ _ _ Hd Hf) in Hr.
      congruence. }
  destruct (JSON_stringify (JObj (to_json r1))) as [data|e] eqn:Hj.
  2:{ exfalso. apply (Hp e).
      rewrite (ReportRequest_outcome _ _ _ _ _ _ _ _ Hd Hf), Hj in Hr.
      congruence. }
  destruct (ReportRequest_sends _ _ _ _ _ _ _ _ _ _ _ _ Hd Hf Hj Hr)
    as (Er & _ & Hreq).
  subst r1.
  pose proof (fill_defaults_populates _ _ _ _ _ Hv Hf)
    as (P1 & P2 & P3 & P4 & P5 & P6 & P7).
  pose proof (fill_defaults_rest _ _ _ _ _ _ Hf) as (Epr & Epl & _).
  pose proof (to_json_fields r')
    as (J1 & J2 & J3 & J4 & J5 & J6 & J7 & _).
  split.
  { eexists. exists data. split; [exact Hreq|]. split; [reflexivity|].
    split; [reflexivity|]. split; [exact Hj|]. simpl. auto. }
  rewrite J1, J2, J3, J4, J5, J6, J7, to_json_userId, to_json_ci, Epr, Epl.
  split; [reflexivity|]. split; [reflexivity|].
  split; [destruct (runID r'); [eexists; reflexivity | discriminate]|].
  split; [destruct P2 as [d ->]; eexists; reflexivity|].
  split; [destruct P3 as [P3 | ->];
            [destruct (arch r'); [eexists; reflexivity | discriminate]
            |eexists; reflexivity]|].
  split; [destruct P4 as [P4 | ->];
            [destruct (os r'); [eexists; reflexivity | discriminate]
            |eexists; reflexivity]|].
  split; [destruct (projectId r'); [eexists; reflexivity | discriminate]|].
  destruct P5 as [P5 | P5].
  - left. destruct (userId r'); [eexists; reflexivity | discriminate].
  - right. rewrite (P6 P5).
    destruct (ciDetect h); [eexists; reflexivity | discriminate].
Qed.

Lemma sent_record_is_complete_witness :
  is_Some (to_json (snd (fst (ReportRequest sample_stringify sample_format
                                dev_host bare_record empty_state)))
             !! "runID")
  /\ is_Some (to_json (snd (fst (ReportRequest sample_stringify sample_format
                                   dev_host bare_record empty_state)))
                !! "projectId").
Proof.
  destruct (sent_record_is_complete sample_stringify sample_format dev_host
              bare_record _ empty_state _ _
              (fun n => eq_refl) eq_refl (triple_eta _))
    as (_ & _ & _ & Hr & _ & _ & _ & Hp & _).
  - intros e. discriminate.
  - split; [exact Hr | exact Hp].
Defined.

(** X12.  End to end: when reporting is enabled, the identity store does
    not throw and [JSON.stringify] returns the body, [sendTelemetry] sends
    exactly one request, a POST to [.../telemetry/cdktf] whose body is
    that text; the record has [product] "cdktf", the given [command], the
    tool's version, the time of the call, the whole payload, and the
    payload's [language] (absent when the payload has none). *)
Theorem sendTelemetry_posts_one_record
    (JSON_stringify : json -> completion string) (format : string -> string)
    (h : Host) (command : string) (payload : gmap string json)
    (s s1 s' : State) (r1 : ReportParams) (p : promise) (data : string) :
  opt_truthy str_truthy (env_CHECKPOINT_DISABLE h) = false ->
  fill_defaults h (telemetry_record h command payload) s = (Normal tt, r1, s1) ->
  JSON_stringify (JObj (to_json r1)) = Normal data ->
  sendTelemetry JSON_stringify format h command payload s = (p, s') ->
  (exists q,
     requests s' = (requests s ++ [q])%list
     /\ req_url q
        = format "https://checkpoint-api.hashicorp.com/v1/telemetry/cdktf"
     /\ req_method q = "POST"
     /\ Accept (req_headers q) = "application/json"
     /\ User_Agent (req_headers q) = "HashiCorp/cdktf-cli"
     /\ req_calls q = [ReqSetTimeout 1000; ReqWrite data; ReqEnd; ReqOnError])
  /\ to_json r1 !! "product" = Some (JStr "cdktf")
  /\ to_json r1 !! "command" = Some (JStr command)
  /\ to_json r1 !! "version" = Some (JStr (versionNumber h))
  /\ to_json r1 !! "dateTime" = Some (JStr (new_Date h))
  /\ to_json r1 !! "language" = payload !! "language"
  /\ to_json r1 !! "payload" = Some (JObj payload).
Proof.
  intros Hd Hf Hj Hs.
  pose proof (fill_defaults_rest _ _ _ _ _ _ Hf) as (E1 & E2 & E3 & E4 & E5).
  assert (Edt : dateTime r1 = Some (new_Date h)).
  { unfold fill_defaults in Hf.
    destruct (fill_host_fields h _ s) as [r0 s0] eqn:Hh.
    apply fill_host_fields_spec in Hh. destruct Hh as (_ & Hdt & _).
    apply fill_identity_spec in Hf. destruct Hf as ((_ & Ed & _) & _).
    rewrite Ed, Hdt. reflexivity. }
  unfold sendTelemetry in Hs. cbv zeta in Hs.
  destruct (ReportRequest JSON_stringify format h
              (telemetry_record h command payload) s) as [[p0 r0] s0] eqn:Hr.
  destruct (ReportRequest_sends _ _ _ _ _ _ _ _ _ _ _ _ Hd Hf Hj Hr)
    as (-> & Hnr & Hreq).
  assert (s' = s0) as ->.
  { destruct p0 as [| |e]; [congruence | congruence |].
    exfalso. apply (Hnr e). reflexivity. }
  pose proof (to_json_fields r1)
    as (J1 & J2 & _ & J4 & _ & _ & _ & J8 & J9 & J10).
  split.
  { eexists. split; [exact Hreq|]. repeat split. }
  rewrite J1, J2, J4, J8, J9, J10, E1, E2, E3, E4, E5, Edt. repeat split.
Qed.

Lemma sendTelemetry_posts_one_record_witness :
  exists q,
    requests (snd (sendTelemetry sample_stringify sample_format dev_host "diff"
                     {[ "language" := JStr "typescript" ]} empty_state)) = [q]
    /\ req_url q = "https://checkpoint-api.hashicorp.com/v1/telemetry/cdktf".
Proof.
  assert (Hj : sample_stringify
                 (JObj (to_json
                          (snd (fst (fill_defaults dev_host
                                       (telemetry_record dev_host "diff"
                                          {[ "language" := JStr "typescript" ]})
                                       empty_state)))))
               = Normal "{}") by (vm_compute; reflexivity).
  destruct (sendTelemetry_posts_one_record sample_stringify sample_format
              dev_host "diff" {[ "language" := JStr "typescript" ]}
              empty_state
              (snd (fill_defaults dev_host
                      (telemetry_record dev_host "diff"
                         {[ "language" := JStr "typescript" ]}) empty_state))
              _
              (snd (fst (fill_defaults dev_host
                           (telemetry_record dev_host "diff"
                              {[ "language" := JStr "typescript" ]})
                           empty_state)))
              _ "{}" eq_refl eq_refl Hj (pair_eta _))
    as ((q & Hq & Hurl & _) & _).
  exists q. split; [exact Hq | exact Hurl].
Defined.

Lemma post_effect (format : string -> string) (h : Host) (url data : string)
    (s sp : State) (po : promise) :
  post format h url data s = (po, sp) ->
  po = settled (post_run data (network h (length (requests s))))
  /\ logged sp = logged s
  /\ requests sp =
     (requests s ++
        [mk_request (format url) "POST"
           (mk_headers "application/json" (js_length data) "HashiCorp/cdktf-cli")
           [ReqSetTimeout 1000; ReqWrite data; ReqEnd; ReqOnError]])%list.
Proof.
  intros Hp. pose proof (post_request format h url data s) as Hq.
  rewrite Hp in Hq. unfold post in Hp. injection Hp as <- <-.
  split; [reflexivity|]. split; [reflexivity | exact Hq].
Qed.

Lemma logged_add_log (e : log_entry) (s : State) :
  logged (add_log e s) = (logged s ++ [e])%list.
Proof. reflexivity. Qed.

Lemma requests_add_log (e : log_entry) (s : State) :
  requests (add_log e s) = requests s.
Proof. reflexivity. Qed.

(** X13.  One call, one attempt: [sendTelemetry] adds at most one request
    and at most one log entry and keeps what was sent and logged before;
    whenever it logs an error, its own promise is fulfilled. *)
Theorem sendTelemetry_single_attempt
    (JSON_stringify : json -> completion string) (format : string -> string)
    (h : Host) (command : string) (payload : gmap string json)
    (s s' : State) (p : promise) :
  sendTelemetry JSON_stringify format h command payload s = (p, s') ->
  exists qs ls,
    requests s' = (requests s ++ qs)%list
    /\ logged s' = (logged s ++ ls)%list
    /\ length qs <= 1 /\ length ls <= 1
    /\ (ls <> [] -> p = Fulfilled).
Proof.
  intros Hs. unfold sendTelemetry in Hs. cbv zeta in Hs.
  destruct (ReportRequest JSON_stringify format h
              (telemetry_record h command payload) s) as [[p0 r0] s0] eqn:Hr.
  destruct (opt_truthy str_truthy (env_CHECKPOINT_DISABLE h)) eqn:Hd.
  - unfold ReportRequest in Hr. rewrite Hd in Hr. injection Hr as <- <- <-.
    injection Hs as <- <-. exists [], [].
    rewrite !app_nil_r. repeat split; auto; intros H; congruence.
  - destruct (fill_defaults h (telemetry_record h command payload) s)
      as [[[u|e] r1] s1] eqn:Hf;
      pose proof (fill_defaults_frame _ _ _ _ _ _ Hf) as [Hq Hl];
      rewrite (ReportRequest_outcome _ _ _ _ _ _ _ _ Hd Hf) in Hr.
    + destruct (JSON_stringify (JObj (to_json r1))) as [data|e] eqn:Hj.
      2:{ injection Hr as <- <- <-. injection Hs as <- <-.
          exists [], [LoggerError ("Could not send telemetry data: "
                                   +:+ error_to_string e)].
          unfold logger_error. rewrite logged_add_log, requests_add_log.
          rewrite Hq, Hl, app_nil_r. simpl. repeat split; auto. }
      cbv zeta in Hr.
      destruct (post format h (BASE_URL +:+ "telemetry/" +:+ product r1)
                  data s1) as [po sp] eqn:Hpost.
      apply post_effect in Hpost. destruct Hpost as (_ & Hpl & Hpq).
      cbn [fst snd] in Hr. rewrite Hq in Hpq. rewrite Hl in Hpl.
      eexists.
      destruct po as [| |e]; injection Hr as <- <- <-; injection Hs as <- <-.
      * exists []. split; [exact Hpq|]. rewrite app_nil_r.
        split; [exact Hpl|]. simpl. repeat split; auto; intros H; congruence.
      * exists []. split; [exact Hpq|]. rewrite app_nil_r.
        split; [exact Hpl|]. simpl. repeat split; auto.
      * exists [ProcessLoggerError (err_message e)].
        unfold processLoggerError.
        rewrite logged_add_log, requests_add_log, Hpl.
        split; [exact Hpq|]. simpl. repeat split; auto.
    + injection Hr as <- <- <-. injection Hs as <- <-.
      exists [], [LoggerError ("Could not send telemetry data: "
                               +:+ error_to_string e)].
      unfold logger_error. rewrite logged_add_log, requests_add_log.
      rewrite Hq, Hl, app_nil_r. simpl. repeat split; auto.
Qed.

Lemma sendTelemetry_single_attempt_witness :
  exists qs ls,
    requests (snd (sendTelemetry sample_stringify sample_format
                     failing_server_host "diff" ∅ empty_state)) = qs
    /\ logged (snd (sendTelemetry sample_stringify sample_format
                      failing_server_host "diff" ∅ empty_state)) = ls
    /\ length qs <= 1 /\ length ls <= 1.
Proof.
  destruct (sendTelemetry_single_attempt sample_stringify sample_format
              failing_server_host "diff" ∅ empty_state _ _ (pair_eta _))
    as (qs & ls & Hq & Hl & Hnq & Hnl & _).
  exists qs, ls. repeat split; assumption.
Defined.

(** ** Identifiers across calls *)

Lemma id_on_disk_ext (s s' : State) (path key : string) (v : json) :
  files s' !! path = files s !! path ->
  require_cache s' !! path = require_cache s !! path ->
  id_on_disk s path key v -> id_on_disk s' path key v.
Proof.
  intros Hf Hc (obj & H1 & H2 & H3 & H4). exists obj.
  rewrite Hf, Hc. auto.
Qed.

Lemma getId_on_disk (h : Host) (path key : string) (comment : option string)
    (s : State) (v : json) :
  id_on_disk s path key v ->
  exists s',
    getId h path key comment s = (Normal v, s')
    /\ files s' = files s
    /\ id_on_disk s' path key v
    /\ (forall q, q <> path -> require_cache s' !! q = require_cache s !! q).
Proof.
  intros (obj & Hf & Hk & Ht & Hc).
  unfold getId, uuidv4, require. simpl.
  destruct Hc as [Hc | Hc]; rewrite Hc; [rewrite Hf|]; rewrite Hk; simpl;
    rewrite Ht; eexists; (split; [reflexivity|]); simpl;
    (split; [reflexivity|]); split.
  - exists obj. simpl. rewrite lookup_insert_eq. auto.
  - intros q Hq. apply lookup_insert_ne. congruence.
  - exists obj. simpl. auto.
  - reflexivity.
Qed.

Lemma fill_identity_on_disk (h : Host) (r : ReportParams) (s : State)
    (vu vp : json) :
  ids_on_disk h s vu vp ->
  opt_truthy str_truthy (ciDetect h) = false ->
  exists r' s',
    fill_identity h r s = (Normal tt, r', s')
    /\ userId r' = (if opt_truthy truthy (userId r) then userId r else Some vu)
    /\ projectId r'
       = (if opt_truthy truthy (projectId r) then projectId r else Some vp)
    /\ files s' = files s
    /\ ids_on_disk h s' vu vp.
Proof.
  intros [Hu Hp] Hci.
  pose proof (identity_paths_differ h) as Hne.
  fold (user_identity_path h) in Hne. fold (project_identity_path h) in Hne.
  unfold fill_identity, getUserId, getProjectId.
  fold (user_identity_path h). fold (project_identity_path h).
  rewrite Hci. cbn [negb]. rewrite andb_true_r.
  destruct (opt_truthy truthy (userId r)) eqn:Eu; cbn [negb].
  - destruct (opt_truthy truthy (projectId r)) eqn:Ep.
    + exists r, s. repeat split; assumption.
    + destruct (getId_on_disk h (project_identity_path h) "projectId" None s vp Hp)
        as (s1 & Hg & Hf & Hd & Hc).
      rewrite Hg. eexists; eexists. split; [reflexivity|].
      split; [reflexivity|]. split; [reflexivity|].
      split; [exact Hf|]. split; [|exact Hd].
      apply (id_on_disk_ext s); [rewrite Hf; reflexivity | apply Hc; exact Hne
                                 | exact Hu].
  - destruct (getId_on_disk h (user_identity_path h) "userId"
                (Some user_comment) s vu Hu) as (s1 & Hg & Hf & Hd & Hc).
    rewrite Hg.
    assert (Hp1 : id_on_disk s1 (project_identity_path h) "projectId" vp).
    { apply (id_on_disk_ext s);
        [rewrite Hf; reflexivity | apply Hc; congruence | exact Hp]. }
    change (projectId (set_userId vu r)) with (projectId r).
    destruct (opt_truthy truthy (projectId r)) eqn:Ep.
    + eexists; eexists. split; [reflexivity|].
      split; [reflexivity|]. split; [reflexivity|].
      split; [exact Hf|]. split; assumption.
    + destruct (getId_on_disk h (project_identity_path h) "projectId" None
                  s1 vp Hp1) as (s2 & Hg2 & Hf2 & Hd2 & Hc2).
      rewrite Hg2. eexists; eexists. split; [reflexivity|].
      split; [reflexivity|]. split; [reflexivity|].
      split; [congruence|]. split; [|exact Hd2].
      apply (id_on_disk_ext s1);
        [rewrite Hf2; reflexivity | apply Hc2; exact Hne | exact Hd].
Qed.

Lemma ReportRequest_on_disk
    (JSON_stringify : json -> completion string) (format : string -> string)
    (h : Host) (r r' : ReportParams) (s s' : State) (p : promise)
    (vu vp : json) :
  ids_on_disk h s vu vp ->
  opt_truthy str_truthy (env_CHECKPOINT_DISABLE h) = false ->
  opt_truthy str_truthy (ciDetect h) = false ->
  ReportRequest JSON_stringify format h r s = (p, r', s') ->
  userId r' = (if opt_truthy truthy (userId r) then userId r else Some vu)
  /\ projectId r'
     = (if opt_truthy truthy (projectId r) then projectId r else Some vp)
  /\ files s' = files s
  /\ ids_on_disk h s' vu vp
  /\ (forall e, p = Rejected e -> JSON_stringify (JObj (to_json r')) = Throw e).
Proof.
  intros Hids Hd Hci Hr.
  pose proof (ReportRequest_store _ _ _ _ _ _ _ _ Hr)
    as [(Hd' & _) | (_ & c & s1 & Hf & Ef & Ec & _)]; [congruence|].
  pose proof Hf as Hf0. unfold fill_defaults in Hf.
  destruct (fill_host_fields h r s) as [r0 s0] eqn:Hh.
  pose proof (fill_host_fields_rest _ _ _ _ _ Hh) as [[Hf1 Hc1] _].
  apply fill_host_fields_spec in Hh.
  destruct Hh as (_ & _ & _ & _ & Hu & _ & Hp & _).
  assert (Hids0 : ids_on_disk h s0 vu vp).
  { destruct Hids as [A B].
    split; (eapply id_on_disk_ext; [| |eassumption]); congruence. }
  destruct (fill_identity_on_disk h r0 s0 vu vp Hids0 Hci)
    as (r2 & s2 & Hi & Eu & Ep & Efs & Hids2).
  rewrite Hi in Hf. injection Hf as <- <- <-.
  rewrite Hu in Eu. rewrite Hp in Ep.
  split; [exact Eu|]. split; [exact Ep|]. split; [congruence|].
  split.
  - destruct Hids2 as [A B].
    split; (eapply id_on_disk_ext; [| |eassumption]); congruence.
  - apply (ReportRequest_completed_rejection _ _ _ _ _ _ _ _ _ _ _
             Hd Hf0 Hr).
Qed.

(** X14.  Identifiers on disk are reused.  On a host without CI, once the
    user and the project identity file hold truthy identifiers (and the
    module cache holds nothing else for them), every [ReportRequest] puts
    exactly those identifiers into the fields the caller left out and
    leaves the files unchanged; the identifiers are still on disk
    afterwards for the next call, and the call can reject only with an
    exception of [JSON.stringify]. *)
Theorem ids_on_disk_are_reused
    (JSON_stringify : json -> completion string) (format : string -> string)
    (h : Host) (r r' : ReportParams) (s s' : State) (p : promise)
    (vu vp : json) :
  ids_on_disk h s vu vp ->
  opt_truthy str_truthy (env_CHECKPOINT_DISABLE h) = false ->
  opt_truthy str_truthy (ciDetect h) = false ->
  opt_truthy truthy (userId r) = false ->
  opt_truthy truthy (projectId r) = false ->
  ReportRequest JSON_stringify format h r s = (p, r', s') ->
  userId r' = Some vu /\ projectId r' = Some vp
  /\ files s' = files s
  /\ ids_on_disk h s' vu vp
  /\ (forall e, p = Rejected e -> JSON_stringify (JObj (to_json r')) = Throw e).
Proof.
  intros Hids Hd Hci Hu Hp Hr.
  destruct (ReportRequest_on_disk _ _ _ _ _ _ _ _ _ _ Hids Hd Hci Hr)
    as (Eu & Ep & Hf & Hids' & Hnr).
  rewrite Hu in Eu. rewrite Hp in Ep. auto.
Qed.

Lemma ids_on_disk_are_reused_witness :
  userId (snd (fst (ReportRequest sample_stringify sample_format dev_host
                      bare_record known_ids_state)))
    = Some (JStr "5f0c2b7e-1a3d-4e6f-9b8c-7d6e5f4a3b2c")
  /\ projectId (snd (fst (ReportRequest sample_stringify sample_format dev_host
                            bare_record known_ids_state)))
    = Some (JStr "0b9c5a3e-7c1d-4c55-9f3e-2f6a1d0e8b77").
Proof.
  destruct (ids_on_disk_are_reused sample_stringify sample_format dev_host
              bare_record
              (snd (fst (ReportRequest sample_stringify sample_format dev_host
                           bare_record known_ids_state)))
              known_ids_state
              (snd (ReportRequest sample_stringify sample_format dev_host
                      bare_record known_ids_state))
              (fst (fst (ReportRequest sample_stringify sample_format dev_host
                           bare_record known_ids_state)))
              (JStr "5f0c2b7e-1a3d-4e6f-9b8c-7d6e5f4a3b2c")
              (JStr "0b9c5a3e-7c1d-4c55-9f3e-2f6a1d0e8b77"))
    as (Hu & Hp & _).
  - split.
    + exists (<["//" := JStr "about this file"]>
                {[ "userId" := JStr "5f0c2b7e-1a3d-4e6f-9b8c-7d6e5f4a3b2c" ]}).
      repeat split. left. reflexivity.
    + exists (<["language" := JStr "typescript"]>
                {[ "projectId" := JStr "0b9c5a3e-7c1d-4c55-9f3e-2f6a1d0e8b77" ]}).
      repeat split. left. reflexivity.
  - reflexivity.
  - reflexivity.
  - reflexivity.
  - reflexivity.
  - apply triple_eta.
  - split; [exact Hu | exact Hp].
Defined.

Lemma getId_fresh_on_disk (h : Host) (path key : string)
    (comment : option string) (s : State) :
  (files s !! path = None \/ files s !! path = Some Unparsable) ->
  require_cache s !! path = None ->
  write_fails h !! path = None ->
  is_uuid_v4 (uuid_source h (uuids_drawn s)) = true ->
  exists s',
    getId h path key comment s
      = (Normal (JStr (uuid_source h (uuids_drawn s))), s')
    /\ id_on_disk s' path key (JStr (uuid_source h (uuids_drawn s)))
    /\ require_cache s' = require_cache s
    /\ (forall q, q <> path -> files s' !! q = files s !! q).
Proof.
  intros Hf Hc Hw Hv.
  rewrite (getId_fresh_file h path key comment s Hf Hc), Hw. cbv zeta.
  eexists. split; [reflexivity|]. split; [|split].
  - eexists. simpl. rewrite lookup_insert_eq.
    split; [reflexivity|]. split; [apply lookup_insert_eq|].
    split; [apply is_uuid_v4_truthy; exact Hv | left; exact Hc].
  - reflexivity.
  - intros q Hq. simpl. apply lookup_insert_ne. congruence.
Qed.

Lemma fill_identity_fresh (h : Host) (r : ReportParams) (s : State) :
  (forall n, is_uuid_v4 (uuid_source h n) = true) ->
  opt_truthy str_truthy (ciDetect h) = false ->
  opt_truthy truthy (userId r) = false ->
  opt_truthy truthy (projectId r) = false ->
  (files s !! user_identity_path h = None
   \/ files s !! user_identity_path h = Some Unparsable) ->
  (files s !! project_identity_path h = None
   \/ files s !! project_identity_path h = Some Unparsable) ->
  require_cache s !! user_identity_path h = None ->
  require_cache s !! project_identity_path h = None ->
  write_fails h !! user_identity_path h = None ->
  write_fails h !! project_identity_path h = None ->
  exists ua ub r' s',
    fill_identity h r s = (Normal tt, r', s')
    /\ userId r' = Some (JStr ua) /\ projectId r' = Some (JStr ub)
    /\ is_uuid_v4 ua = true /\ is_uuid_v4 ub = true
    /\ ids_on_disk h s' (JStr ua) (JStr ub).
Proof.
  intros Hv Hci Hu Hp Hfu Hfp Hcu Hcp Hwu Hwp.
  pose proof (identity_paths_differ h) as Hne.
  fold (user_identity_path h) in Hne. fold (project_identity_path h) in Hne.
  destruct (getId_fresh_on_disk h (user_identity_path h) "userId"
              (Some user_comment) s Hfu Hcu Hwu (Hv _))
    as (s1 & Hg1 & Hd1 & Hc1 & Hf1).
  destruct (getId_fresh_on_disk h (project_identity_path h) "projectId"
              None s1) as (s2 & Hg2 & Hd2 & Hc2 & Hf2).
  { rewrite Hf1 by congruence. exact Hfp. }
  { rewrite Hc1. exact Hcp. }
  { exact Hwp. }
  { apply Hv. }
  exists (uuid_source h (uuids_drawn s)), (uuid_source h (uuids_drawn s1)).
  unfold fill_identity, getUserId, getProjectId.
  fold (user_identity_path h). fold (project_identity_path h).
  rewrite Hci, Hu. simpl. rewrite Hg1. simpl. rewrite Hp, Hg2.
  eexists; eexists. split; [reflexivity|]. simpl.
  split; [reflexivity|]. split; [reflexivity|].
  split; [apply Hv|]. split; [apply Hv|]. split; [|exact Hd2].
  apply (id_on_disk_ext s1);
    [apply Hf2; exact Hne | rewrite Hc2; reflexivity | exact Hd1].
Qed.

(** X15.  The first report creates the identifiers and the next one reuses
    them.  On a host without CI where neither identity file exists (or
    parses), both can be written and neither was loaded before, a
    [ReportRequest] for a record without identifiers sends two version-4
    UUIDs as [userId] and [projectId]; a second [ReportRequest] in the same
    process, for any record without identifiers, sends the same two values
    and writes nothing. *)
Theorem first_report_creates_ids_next_reuses
    (JSON_stringify : json -> completion string) (format : string -> string)
    (h : Host) (r1 r1' r2 r2' : ReportParams) (s s1 s2 : State)
    (p1 p2 : promise) :
  (forall n, is_uuid_v4 (uuid_source h n) = true) ->
  opt_truthy str_truthy (env_CHECKPOINT_DISABLE h) = false ->
  opt_truthy str_truthy (ciDetect h) = false ->
  (files s !! path_resolve (process_cwd h) [os_homedir h; ".cdktf"; "config.json"] = None
   \/ files s !! path_resolve (process_cwd h) [os_homedir h; ".cdktf"; "config.json"]
      = Some Unparsable) ->
  (files s !! path_resolve (process_cwd h) [process_cwd h; "cdktf.json"] = None
   \/ files s !! path_resolve (process_cwd h) [process_cwd h; "cdktf.json"] = Some Unparsable) ->
  require_cache s !! path_resolve (process_cwd h) [os_homedir h; ".cdktf"; "config.json"] = None ->
  require_cache s !! path_resolve (process_cwd h) [process_cwd h; "cdktf.json"] = None ->
  write_fails h !! path_resolve (process_cwd h) [os_homedir h; ".cdktf"; "config.json"] = None ->
  write_fails h !! path_resolve (process_cwd h) [process_cwd h; "cdktf.json"] = None ->
  opt_truthy truthy (userId r1) = false ->
  opt_truthy truthy (projectId r1) = false ->
  opt_truthy truthy (userId r2) = false ->
  opt_truthy truthy (projectId r2) = false ->
  ReportRequest JSON_stringify format h r1 s = (p1, r1', s1) ->
  ReportRequest JSON_stringify format h r2 s1 = (p2, r2', s2) ->
  exists ua ub,
    userId r1' = Some (JStr ua) /\ projectId r1' = Some (JStr ub)
    /\ is_uuid_v4 ua = true /\ is_uuid_v4 ub = true
    /\ userId r2' = Some (JStr ua) /\ projectId r2' = Some (JStr ub)
    /\ files s2 = files s1.
Proof.
  intros Hv Hd Hci Hfu Hfp Hcu Hcp Hwu Hwp Hu1 Hp1 Hu2 Hp2 Hr1 Hr2.
  pose proof (ReportRequest_store _ _ _ _ _ _ _ _ Hr1)
    as [(Hd' & _) | (_ & c & s0 & Hf & Ef & Ec & _)]; [congruence|].
  unfold fill_defaults in Hf.
  destruct (fill_host_fields h r1 s) as [r0 sh] eqn:Hh.
  pose proof (fill_host_fields_rest _ _ _ _ _ Hh) as [[Hfh Hch] _].
  apply fill_host_fields_spec in Hh.
  destruct Hh as (_ & _ & _ & _ & Eu & _ & Ep & _).
  destruct (fill_identity_fresh h r0 sh Hv Hci)
    as (ua & ub & r3 & s3 & Hi & Hua & Hub & Va & Vb & Hids);
    unfold user_identity_path, project_identity_path;
    rewrite ?Eu, ?Ep, ?Hfh, ?Hch; try assumption.
  rewrite Hi in Hf. injection Hf as <- <- <-.
  assert (Hids1 : ids_on_disk h s1 (JStr ua) (JStr ub)).
  { destruct Hids as [A B].
    split; (eapply id_on_disk_ext; [| |eassumption]); congruence. }
  destruct (ReportRequest_on_disk _ _ _ _ _ _ _ _ _ _ Hids1 Hd Hci Hr2)
    as (Eu2 & Ep2 & Hf2 & _).
  rewrite Hu2 in Eu2. rewrite Hp2 in Ep2.
  exists ua, ub. auto 10.
Qed.

Lemma first_report_creates_ids_next_reuses_witness :
  exists ua ub,
    userId (snd (fst (ReportRequest sample_stringify sample_format
                        counting_host bare_record empty_state)))
      = Some (JStr ua)
    /\ projectId (snd (fst (ReportRequest sample_stringify sample_format
                              counting_host bare_record empty_state)))
      = Some (JStr ub)
    /\ userId (snd (fst (ReportRequest sample_stringify sample_format
                           counting_host record_with_empty_runID
                           (snd (ReportRequest sample_stringify sample_format
                                   counting_host bare_record empty_state)))))
      = Some (JStr ua)
    /\ projectId (snd (fst (ReportRequest sample_stringify sample_format
                              counting_host record_with_empty_runID
                              (snd (ReportRequest sample_stringify
                                      sample_format counting_host bare_record
                                      empty_state)))))
      = Some (JStr ub).
Proof.
  destruct (first_report_creates_ids_next_reuses sample_stringify
              sample_format counting_host bare_record
              (snd (fst (ReportRequest sample_stringify sample_format counting_host bare_record empty_state)))
              record_with_empty_runID
              (snd (fst (ReportRequest sample_stringify sample_format counting_host record_with_empty_runID (snd (ReportRequest sample_stringify sample_format counting_host bare_record empty_state)))))
              empty_state
              (snd (ReportRequest sample_stringify sample_format counting_host bare_record empty_state))
              (snd (ReportRequest sample_stringify sample_format counting_host record_with_empty_runID (snd (ReportRequest sample_stringify sample_format counting_host bare_record empty_state))))
              (fst (fst (ReportRequest sample_stringify sample_format counting_host bare_record empty_state)))
              (fst (fst (ReportRequest sample_stringify sample_format counting_host record_with_empty_runID (snd (ReportRequest sample_stringify sample_format counting_host bare_record empty_state))))))
    as (ua & ub & H1 & H2 & _ & _ & H3 & H4 & _).
  - intros [|[|n]]; reflexivity.
  - reflexivity.
  - reflexivity.
  - left. reflexivity.
  - left. reflexivity.
  - reflexivity.
  - reflexivity.
  - reflexivity.
  - reflexivity.
  - reflexivity.
  - reflexivity.
  - reflexivity.
  - reflexivity.
  - apply triple_eta.
  - apply triple_eta.
  - exists ua, ub. auto.
Defined.

(** ** The explanatory comment and failing writes *)

Lemma replaceAll_newline_space_id (s : string) :
  ~ In "010"%char (list_ascii_of_string s) -> replaceAll_newline_space s = s.
Proof.
  induction s as [|c s IH]; simpl; [reflexivity|].
  intros Hn. destruct (Ascii.eqb_spec c "010"%char) as [->|Hc].
  - exfalso. apply Hn. left. reflexivity.
  - rewrite IH; [reflexivity|]. intros Hin. apply Hn. right. exact Hin.
Qed.

(** X16.  The comment that [getId] stores on first creation is a single
    line: the text under ["//"] contains no newline, is as long as the
    comment passed, and is the comment itself when that had no newline. *)
Theorem getId_stored_comment_single_line (h : Host) (filePath key c : string)
    (s : State) :
  (files s !! filePath = None \/ files s !! filePath = Some Unparsable) ->
  require_cache s !! filePath = None ->
  write_fails h !! filePath = None ->
  c <> "" -> key <> "//" ->
  exists (obj : gmap string json) (c' : string),
    files (snd (getId h filePath key (Some c) s)) !! filePath
      = Some (Parsed obj)
    /\ obj !! "//" = Some (JStr c')
    /\ ~ In "010"%char (list_ascii_of_string c')
    /\ String.length c' = String.length c
    /\ (~ In "010"%char (list_ascii_of_string c) -> c' = c).
Proof.
  intros Hf Hc Hw Hne Hk.
  rewrite (getId_fresh_file h filePath key (Some c) s Hf Hc), Hw. cbv zeta.
  simpl. apply str_truthy_ne in Hne. rewrite Hne.
  eexists. exists (replaceAll_newline_space c).
  split; [apply lookup_insert_eq|].
  split; [rewrite lookup_insert_ne by congruence; apply lookup_singleton_eq|].
  split; [apply replaceAll_newline_space_clean|].
  split; [apply replaceAll_newline_space_length|].
  apply replaceAll_newline_space_id.
Qed.

Lemma getId_stored_comment_single_line_witness :
  exists (obj : gmap string json) (c' : string),
    files (snd (getUserId dev_host empty_state))
      !! "/home/dev/.cdktf/config.json" = Some (Parsed obj)
    /\ obj !! "//" = Some (JStr c')
    /\ ~ In "010"%char (list_ascii_of_string c')
    /\ String.length c' = String.length user_comment.
Proof.
  destruct (getId_stored_comment_single_line dev_host
              "/home/dev/.cdktf/config.json" "userId" user_comment empty_state)
    as (obj & c' & Hf & Hc & Hn & Hl & _).
  - left. reflexivity.
  - reflexivity.
  - reflexivity.
  - discriminate.
  - discriminate.
  - exists obj, c'. auto.
Defined.



(** ** Liveness *)

(** X18.  [sendTelemetry] does not hang on a silent or stalled server: if
    the idle timer of the request fires at some point, whatever else
    happens before or after, the promise of [sendTelemetry] is
    fulfilled. *)
Theorem sendTelemetry_resolves_once_timer_fires
    (JSON_stringify : json -> completion string) (format : string -> string)
    (h : Host) (command : string) (payload : gmap string json)
    (s s' : State) (p : promise) :
  In EvTimeout (network h (length (requests s))) ->
  sendTelemetry JSON_stringify format h command payload s = (p, s') ->
  p = Fulfilled.
Proof.
  intros Hin Hs. unfold sendTelemetry in Hs. cbv zeta in Hs.
  destruct (opt_truthy str_truthy (env_CHECKPOINT_DISABLE h)) eqn:Hd.
  - unfold ReportRequest in Hs. rewrite Hd in Hs. congruence.
  - destruct (fill_defaults h (telemetry_record h command payload) s)
      as [[[u|e] r1] s1] eqn:Hf.
    + pose proof (fill_defaults_frame _ _ _ _ _ _ Hf) as [Hq _].
      rewrite (ReportRequest_outcome _ _ _ _ _ _ _ _ Hd Hf) in Hs.
      destruct (JSON_stringify (JObj (to_json r1))) as [data|e];
        [|congruence].
      cbv zeta in Hs. unfold post in Hs. simpl fst in Hs. simpl snd in Hs.
      rewrite Hq in Hs.
      pose proof (post_run_settles data _ Hin) as Hset.
      destruct (settled (post_run _ _)) as [| |e]; [contradiction| |];
        congruence.
    + rewrite (ReportRequest_outcome _ _ _ _ _ _ _ _ Hd Hf) in Hs.
      congruence.
Qed.

Lemma sendTelemetry_resolves_once_timer_fires_witness :
  fst (sendTelemetry sample_stringify sample_format silent_server_host "diff"
         ∅ empty_state) = Fulfilled.
Proof.
  refine (sendTelemetry_resolves_once_timer_fires sample_stringify
            sample_format silent_server_host "diff" ∅ empty_state _ _ _
            (pair_eta _)).
  left. reflexivity.
Defined.
